(** * SystemTestsCompareTwo: the two-phase comparison test of CIME

    A shallow embedding of
    [utils/python/CIME/SystemTests/system_tests_compare_two.py]
    and of the fake used by its unit tests
    ([tests/test_system_tests_compare_two.py]).

    The Python object is a record, the methods are computations in a
    state-and-exception monad, and every call that reaches a collaborator
    (a hook of the individual test, a method of the base class
    [SystemTestsCommon], the case object, a file helper) is recorded in a
    log together with what it returned, in the way the fake of the unit
    tests records [Call(method, arguments)]. *)

From stdpp Require Import base strings list gmap.
From Stdlib Require Import Ascii Lia.

Local Open Scope string_scope.
Local Open Scope list_scope.

(* stdpp's solvers clear hypotheses by names that are sometimes gone *)
#[local] Set Warnings "-clear-no-such-hyp".

(** ** Exceptions *)

Inductive Exn : Type :=
| ConfigurationError (msg : string)  (* raised by [expect] *)
| ValueError (msg : string)
| NotImplementedError (msg : string).

#[global] Instance Exn_eq_dec : EqDecision Exn.
Proof. solve_decision. Defined.

(** Modelled from the spec: [expect] comes from [CIME.utils], which is not
    part of the sources at hand.  The spec calls what it raises a
    configuration error, "raised synchronously at construction or call
    time; fatal". *)
Definition expect (condition : bool) (error_msg : string) : Exn + unit :=
  if condition then inr tt else inl (ConfigurationError error_msg).

(** ** [str.rstrip()] *)

(** Whitespace of a byte string: space, and the controls from tab (9) to
    carriage return (13). *)
Definition isspace (c : ascii) : bool :=
  let n := nat_of_ascii c in
  (n =? 32)%nat || ((9 <=? n)%nat && (n <=? 13)%nat).

Definition is_empty (s : string) : bool :=
  match s with EmptyString => true | String _ _ => false end.

(** [s.rstrip()]: [s] without its trailing whitespace. *)
Fixpoint rstrip (s : string) : string :=
  match s with
  | EmptyString => EmptyString
  | String c s' =>
      let r := rstrip s' in
      if is_empty r && isspace c then EmptyString else String c r
  end.

Fixpoint all_space (s : string) : bool :=
  match s with
  | EmptyString => true
  | String c s' => isspace c && all_space s'
  end.

Fixpoint last_char (s : string) : option ascii :=
  match s with
  | EmptyString => None
  | String c EmptyString => Some c
  | String _ s' => last_char s'
  end.

(** ** The object *)

Record SystemTestsCompareTwo : Type := {
  _runs_have_different_pe_settings : bool;
  _two_builds_for_sharedlib : bool;
  _two_builds_for_model : bool;
  _run_one_suffix : string;
  _run_two_suffix : string;
  _run_one_description : string;
  _run_two_description : string;
  _status_run1 : string;
  _status_run2 : string;
  _status_compare : string
}.

(** suffix used for saving original versions of files *)
Definition ORIGINAL_SUFFIX : string := "original".

Definition string_neq (a b : string) : bool := negb (String.eqb a b).

(** [SystemTestsCompareTwo.__init__].  The case handed to the constructor is
    only passed on to [SystemTestsCommon.__init__]; in this development it
    lives in the state the methods run in.  [run_two_suffix] defaults to
    ['test'] and both descriptions to [''] in the source. *)
Definition __init__
    (two_builds_for_sharedlib two_builds_for_model
       runs_have_different_pe_settings : bool)
    (run_two_suffix run_one_description run_two_description : string)
  : Exn + SystemTestsCompareTwo :=
  let run_one_suffix := "base" in
  let run_two_suffix := rstrip run_two_suffix in
  match expect (string_neq run_two_suffix run_one_suffix)
          "ERROR: Must have different suffixes for run one and run two" with
  | inl e => inl e
  | inr _ =>
  match expect (string_neq run_one_suffix ORIGINAL_SUFFIX)
          ("ERROR: Run one suffix cannot be '" +:+ ORIGINAL_SUFFIX +:+ "'") with
  | inl e => inl e
  | inr _ =>
  match expect (string_neq run_two_suffix ORIGINAL_SUFFIX)
          ("ERROR: Run two suffix cannot be '" +:+ ORIGINAL_SUFFIX +:+ "'") with
  | inl e => inl e
  | inr _ =>
      inr {| _runs_have_different_pe_settings := runs_have_different_pe_settings;
             _two_builds_for_sharedlib := two_builds_for_sharedlib;
             _two_builds_for_model := two_builds_for_model;
             _run_one_suffix := run_one_suffix;
             _run_two_suffix := run_two_suffix;
             _run_one_description := run_one_description;
             _run_two_description := run_two_description;
             _status_run1 := "NOT RUN";
             _status_run2 := "NOT RUN";
             _status_compare := "NOT RUN" |}
  end end end.

Definition default_run_two_suffix : string := "test".

(** ** Calls and the log *)

(** The calls that leave the class, named after the method or function that
    is called, with the arguments of the call. *)
Inductive Call : Type :=
| METHOD_run_common_setup
| METHOD_run_one_setup
| METHOD_run_two_setup
| METHOD_pre_build
| METHOD_adjust_pes_for_run_one
| METHOD_adjust_pes_for_run_two
| METHOD_build_one_setup
| METHOD_build_two_setup
| METHOD_run (suffix : string)
| METHOD_component_compare_test (suffix1 suffix2 : string)
| METHOD_stage_saved_pes_file (suffix : string)
| METHOD_stage_saved_build_files (suffix : string)
| METHOD_load_staged_xml_files (modified_pes : bool)
| METHOD_save_build_files (suffix : string)
| METHOD_SystemTestsCommon_build (sharedlib_only model_only : bool)
| METHOD_case_read_xml
| METHOD_case_flush
| FUNCTION_restore_or_save_xml_file (xml_file suffix : string)
| FUNCTION_save_xml_file (xml_file suffix : string)
| FUNCTION_logger_info (msg : string).

#[global] Instance Call_eq_dec : EqDecision Call.
Proof. solve_decision. Defined.

(** How a call ended. *)
Inductive Outcome : Type :=
| Returned_None
| Returned (value : bool)
| Raised (e : Exn).

#[global] Instance Outcome_eq_dec : EqDecision Outcome.
Proof. solve_decision. Defined.

Definition Event : Type := Call * Outcome.

(** ** What the class calls but does not define *)

Module Impl.
(** The implementations a concrete test class brings along, as functions
    of the case (the case object and the case directory, everything
    outside of this class).  A call either raises or returns. *)
Record t (Case : Type) : Type := {
  (* the hooks of the individual test *)
  _run_common_setup : Case -> Exn + Case;
  _run_one_setup : Case -> Exn + Case;
  _run_two_setup : Case -> Exn + Case;
  _pre_build : Case -> Exn + Case;
  _adjust_pes_for_run_one : Case -> Exn + Case;
  _adjust_pes_for_run_two : Case -> Exn + Case;
  _build_one_setup : Case -> Exn + Case;
  _build_two_setup : Case -> Exn + Case;
  (* methods that are called on self and are not defined in this class *)
  _run : string -> Case -> Exn + (bool * Case);
  _component_compare_test : string -> string -> Case -> Exn + (bool * Case);
  _stage_saved_pes_file : string -> Case -> Exn + Case;
  _stage_saved_build_files : string -> Case -> Exn + Case;
  _load_staged_xml_files : bool -> Case -> Exn + Case;
  _save_build_files : string -> Case -> Exn + Case;
  SystemTestsCommon_build : bool -> bool -> Case -> Exn + Case;
  (* the case object *)
  read_xml : Case -> Exn + Case;
  flush : Case -> Exn + Case;
  (* what putting a saved file back does to the case directory *)
  restore_xml_file : string -> string -> Case -> Case
}.
Arguments _run_common_setup {Case}.
Arguments _run_one_setup {Case}.
Arguments _run_two_setup {Case}.
Arguments _pre_build {Case}.
Arguments _adjust_pes_for_run_one {Case}.
Arguments _adjust_pes_for_run_two {Case}.
Arguments _build_one_setup {Case}.
Arguments _build_two_setup {Case}.
Arguments _run {Case}.
Arguments _component_compare_test {Case}.
Arguments _stage_saved_pes_file {Case}.
Arguments _stage_saved_build_files {Case}.
Arguments _load_staged_xml_files {Case}.
Arguments _save_build_files {Case}.
Arguments SystemTestsCommon_build {Case}.
Arguments read_xml {Case}.
Arguments flush {Case}.
Arguments restore_xml_file {Case}.

(** The hooks as [SystemTestsCompareTwo] itself defines them: the three
    run hooks, the two PE hooks and the two build hooks raise,
    [_pre_build] passes. *)
Definition base_class {Case : Type} (inherited : t Case) : t Case :=
  {| _run_common_setup := fun _ => inl (NotImplementedError "");
     _run_one_setup := fun _ => inl (NotImplementedError "");
     _run_two_setup := fun _ => inl (NotImplementedError "");
     _pre_build := fun c => inr c;
     _adjust_pes_for_run_one := fun _ =>
       inl (NotImplementedError
         "_adjust_pes_for_run_one must be implemented by tests with two PE layouts");
     _adjust_pes_for_run_two := fun _ =>
       inl (NotImplementedError
         "_adjust_pes_for_run_two must be implemented by tests with two PE layouts");
     _build_one_setup := fun _ =>
       inl (NotImplementedError
         "_build_one_setup must be implemented by tests with two builds");
     _build_two_setup := fun _ =>
       inl (NotImplementedError
         "_build_one_setup must be implemented by tests with two builds");
     _run := _run inherited;
     _component_compare_test := _component_compare_test inherited;
     _stage_saved_pes_file := _stage_saved_pes_file inherited;
     _stage_saved_build_files := _stage_saved_build_files inherited;
     _load_staged_xml_files := _load_staged_xml_files inherited;
     _save_build_files := _save_build_files inherited;
     SystemTestsCommon_build := SystemTestsCommon_build inherited;
     read_xml := read_xml inherited;
     flush := flush inherited;
     restore_xml_file := restore_xml_file inherited |}.
End Impl.

(** ** State and monad *)

(** The object, the case, the saved copies of xml files in the case
    directory (a set of pairs of a file kind and a suffix), and the log of
    the calls made so far. *)
Record State (Case : Type) : Type := {
  self : SystemTestsCompareTwo;
  case : Case;
  saved_xml_files : gset (string * string);
  log : list Event
}.
Arguments self {Case}.
Arguments case {Case}.
Arguments saved_xml_files {Case}.
Arguments log {Case}.

Definition M (Case A : Type) : Type := State Case -> (Exn + A) * State Case.

Definition ret {Case A} (a : A) : M Case A := fun st => (inr a, st).

Definition bind {Case A B} (m : M Case A) (k : A -> M Case B) : M Case B :=
  fun st =>
    match m st with
    | (inl e, st') => (inl e, st')
    | (inr a, st') => k a st'
    end.

Definition raise {Case A} (e : Exn) : M Case A := fun st => (inl e, st).

Declare Scope monad_scope.
Delimit Scope monad_scope with monad.
Notation "x <- m ;; k" := (bind m (fun x => k))
  (at level 100, m at next level, k at level 200, right associativity)
  : monad_scope.
Notation "m ;; k" := (bind m (fun _ => k))
  (at level 100, k at level 200, right associativity) : monad_scope.
Bind Scope monad_scope with M.
Local Open Scope monad_scope.

Section Methods.
Context {Case : Type} (H : Impl.t Case).

Abbreviation M := (M Case).
Abbreviation State := (State Case).

(** *** Reading and writing the attributes of [self] *)

Definition attr {A} (f : SystemTestsCompareTwo -> A) : M A :=
  fun st => (inr (f (self st)), st).

Definition set_self (o : SystemTestsCompareTwo) (st : State) : State :=
  {| self := o; case := case st;
     saved_xml_files := saved_xml_files st; log := log st |}.

Definition with_status_run1 (v : string) (o : SystemTestsCompareTwo) :=
  {| _runs_have_different_pe_settings := _runs_have_different_pe_settings o;
     _two_builds_for_sharedlib := _two_builds_for_sharedlib o;
     _two_builds_for_model := _two_builds_for_model o;
     _run_one_suffix := _run_one_suffix o;
     _run_two_suffix := _run_two_suffix o;
     _run_one_description := _run_one_description o;
     _run_two_description := _run_two_description o;
     _status_run1 := v;
     _status_run2 := _status_run2 o;
     _status_compare := _status_compare o |}.

Definition with_status_run2 (v : string) (o : SystemTestsCompareTwo) :=
  {| _runs_have_different_pe_settings := _runs_have_different_pe_settings o;
     _two_builds_for_sharedlib := _two_builds_for_sharedlib o;
     _two_builds_for_model := _two_builds_for_model o;
     _run_one_suffix := _run_one_suffix o;
     _run_two_suffix := _run_two_suffix o;
     _run_one_description := _run_one_description o;
     _run_two_description := _run_two_description o;
     _status_run1 := _status_run1 o;
     _status_run2 := v;
     _status_compare := _status_compare o |}.

Definition with_status_compare (v : string) (o : SystemTestsCompareTwo) :=
  {| _runs_have_different_pe_settings := _runs_have_different_pe_settings o;
     _two_builds_for_sharedlib := _two_builds_for_sharedlib o;
     _two_builds_for_model := _two_builds_for_model o;
     _run_one_suffix := _run_one_suffix o;
     _run_two_suffix := _run_two_suffix o;
     _run_one_description := _run_one_description o;
     _run_two_description := _run_two_description o;
     _status_run1 := _status_run1 o;
     _status_run2 := _status_run2 o;
     _status_compare := v |}.

Definition set_status_run1 (v : string) : M unit :=
  fun st => (inr tt, set_self (with_status_run1 v (self st)) st).
Definition set_status_run2 (v : string) : M unit :=
  fun st => (inr tt, set_self (with_status_run2 v (self st)) st).
Definition set_status_compare (v : string) : M unit :=
  fun st => (inr tt, set_self (with_status_compare v (self st)) st).

(** *** Calls that leave the class *)

Definition logged (c : Call) (o : Outcome) (case' : Case) (st : State) : State :=
  {| self := self st; case := case';
     saved_xml_files := saved_xml_files st; log := log st ++ [(c, o)] |}.

(** A call of something that returns nothing. *)
Definition call (c : Call) (f : Case -> Exn + Case) : M unit :=
  fun st =>
    match f (case st) with
    | inl e => (inl e, logged c (Raised e) (case st) st)
    | inr case' => (inr tt, logged c Returned_None case' st)
    end.

(** A call of something that returns a boolean. *)
Definition call_bool (c : Call) (f : Case -> Exn + (bool * Case)) : M bool :=
  fun st =>
    match f (case st) with
    | inl e => (inl e, logged c (Raised e) (case st) st)
    | inr (b, case') => (inr b, logged c (Returned b) case' st)
    end.

Definition _run_common_setup : M unit :=
  call METHOD_run_common_setup (Impl._run_common_setup H).
Definition _run_one_setup : M unit :=
  call METHOD_run_one_setup (Impl._run_one_setup H).
Definition _run_two_setup : M unit :=
  call METHOD_run_two_setup (Impl._run_two_setup H).
Definition _pre_build : M unit :=
  call METHOD_pre_build (Impl._pre_build H).
Definition _adjust_pes_for_run_one : M unit :=
  call METHOD_adjust_pes_for_run_one (Impl._adjust_pes_for_run_one H).
Definition _adjust_pes_for_run_two : M unit :=
  call METHOD_adjust_pes_for_run_two (Impl._adjust_pes_for_run_two H).
Definition _build_one_setup : M unit :=
  call METHOD_build_one_setup (Impl._build_one_setup H).
Definition _build_two_setup : M unit :=
  call METHOD_build_two_setup (Impl._build_two_setup H).
Definition _run (suffix : string) : M bool :=
  call_bool (METHOD_run suffix) (Impl._run H suffix).
Definition _component_compare_test (suffix1 suffix2 : string) : M bool :=
  call_bool (METHOD_component_compare_test suffix1 suffix2)
    (Impl._component_compare_test H suffix1 suffix2).
Definition _stage_saved_pes_file (suffix : string) : M unit :=
  call (METHOD_stage_saved_pes_file suffix) (Impl._stage_saved_pes_file H suffix).
Definition _stage_saved_build_files (suffix : string) : M unit :=
  call (METHOD_stage_saved_build_files suffix)
    (Impl._stage_saved_build_files H suffix).
Definition _load_staged_xml_files (modified_pes : bool) : M unit :=
  call (METHOD_load_staged_xml_files modified_pes)
    (Impl._load_staged_xml_files H modified_pes).
Definition _save_build_files (suffix : string) : M unit :=
  call (METHOD_save_build_files suffix) (Impl._save_build_files H suffix).
Definition SystemTestsCommon_build (sharedlib_only model_only : bool) : M unit :=
  call (METHOD_SystemTestsCommon_build sharedlib_only model_only)
    (Impl.SystemTestsCommon_build H sharedlib_only model_only).
Definition case_read_xml : M unit :=
  call METHOD_case_read_xml (Impl.read_xml H).
Definition case_flush : M unit :=
  call METHOD_case_flush (Impl.flush H).
Definition logger_info (msg : string) : M unit :=
  call (FUNCTION_logger_info msg) (fun c => inr c).

(** *** The file helpers *)

(** Modelled from the spec: [saved_xml_file_exists], [save_xml_file] and
    [restore_or_save_xml_file] are imported into the module and are not
    part of the sources at hand.  The spec has them as
    [snapshotExists(kind, suffix)], an "idempotency check";
    [snapshot(kind, suffix)], which saves a configuration artifact; and
    the restore-or-snapshot step: "attempt to restore a previously-saved
    snapshot; if none exists, treat the current on-disk state as the
    original and snapshot it", where "restore reports whether it actually
    replaced live state".  Snapshots are "never mutated after creation
    (append-only by suffix)".  The [caseroot] argument is left out: the
    state holds the saved files of this one case directory. *)
Definition saved_xml_file_exists (xml_file suffix : string) : M bool :=
  fun st => (inr (bool_decide ((xml_file, suffix) ∈ saved_xml_files st)), st).

Definition save_xml_file (xml_file suffix : string) : M unit :=
  fun st =>
    (inr tt,
     {| self := self st; case := case st;
        saved_xml_files := {[ (xml_file, suffix) ]} ∪ saved_xml_files st;
        log := log st ++ [(FUNCTION_save_xml_file xml_file suffix, Returned_None)] |}).

Definition restore_or_save_xml_file (xml_file suffix : string) : M bool :=
  fun st =>
    if bool_decide ((xml_file, suffix) ∈ saved_xml_files st) then
      (inr true,
       logged (FUNCTION_restore_or_save_xml_file xml_file suffix) (Returned true)
         (Impl.restore_xml_file H xml_file suffix (case st)) st)
    else
      (inr false,
       {| self := self st; case := case st;
          saved_xml_files := {[ (xml_file, suffix) ]} ∪ saved_xml_files st;
          log := log st ++
            [(FUNCTION_restore_or_save_xml_file xml_file suffix, Returned false)] |}).

(** *** Private methods *)

Definition _needs_two_builds (sharedlib_only model_only : bool) : M bool :=
  if negb sharedlib_only && negb model_only then
    (* building both at once *)
    a <- attr _two_builds_for_sharedlib;;
    if a then ret true else attr _two_builds_for_model
  else if sharedlib_only then
    attr _two_builds_for_sharedlib
  else if model_only then
    attr _two_builds_for_model
  else
    raise (ValueError "Invalid for both sharedlib_only and model_only to be set").

Definition _has_two_executables : M bool :=
  a <- attr _two_builds_for_sharedlib;;
  b <- (if a then ret true else attr _two_builds_for_model);;
  if b then ret true else ret false.

Definition _pre_build_restore_or_save_xml_files : M unit :=
  pe <- attr _runs_have_different_pe_settings;;
  env_mach_pes_restored <-
    (if pe then restore_or_save_xml_file "env_mach_pes" ORIGINAL_SUFFIX
     else ret false);;
  two <- _has_two_executables;;
  env_build_restored <-
    (if two then restore_or_save_xml_file "env_build" ORIGINAL_SUFFIX
     else ret false);;
  if env_mach_pes_restored || env_build_restored then case_read_xml
  else ret tt.

Definition _create_pe_files : M unit :=
  s1 <- attr _run_one_suffix;;
  e1 <- saved_xml_file_exists "env_mach_pes" s1;;
  (if negb e1 then
     _adjust_pes_for_run_one;;
     case_flush;;
     s1 <- attr _run_one_suffix;;
     save_xml_file "env_mach_pes" s1
   else ret tt);;
  s2 <- attr _run_two_suffix;;
  e2 <- saved_xml_file_exists "env_mach_pes" s2;;
  if negb e2 then
    _adjust_pes_for_run_two;;
    case_flush;;
    s2 <- attr _run_two_suffix;;
    save_xml_file "env_mach_pes" s2
  else ret tt.

Definition _do_two_builds (sharedlib_only model_only : bool) : M unit :=
  (* First build *)
  pe <- attr _runs_have_different_pe_settings;;
  (if pe then
     s1 <- attr _run_one_suffix;;
     _stage_saved_pes_file s1;;
     _load_staged_xml_files true
   else ret tt);;
  _build_one_setup;;
  SystemTestsCommon_build sharedlib_only model_only;;
  s1 <- attr _run_one_suffix;;
  _save_build_files s1;;
  (* Second build *)
  pe <- attr _runs_have_different_pe_settings;;
  (if pe then
     s2 <- attr _run_two_suffix;;
     _stage_saved_pes_file s2;;
     _load_staged_xml_files true
   else ret tt);;
  _build_two_setup;;
  SystemTestsCommon_build sharedlib_only model_only;;
  s2 <- attr _run_two_suffix;;
  _save_build_files s2.

(** *** Main public methods *)

(** [build(self, sharedlib_only=False, model_only=False)] *)
Definition build (sharedlib_only model_only : bool) : M unit :=
  _pre_build_restore_or_save_xml_files;;
  pe <- attr _runs_have_different_pe_settings;;
  (if pe then _create_pe_files else ret tt);;
  _pre_build;;
  two <- _needs_two_builds sharedlib_only model_only;;
  if two then
    _do_two_builds sharedlib_only model_only
  else
    pe <- attr _runs_have_different_pe_settings;;
    (if pe then
       (* Two different PE settings, yet only one build: the first run's
          PE settings are used for the build *)
       s1 <- attr _run_one_suffix;;
       _stage_saved_pes_file s1;;
       _load_staged_xml_files true
     else ret tt);;
    SystemTestsCommon_build sharedlib_only model_only.

(** The condition [self._runs_have_different_pe_settings or
    self._has_two_executables()]. *)
Definition different_pes_or_two_executables : M bool :=
  pe <- attr _runs_have_different_pe_settings;;
  if pe then ret true else _has_two_executables.

(** Runs both phases of the two-phase test and compares their results *)
Definition run : M bool :=
  (* First run *)
  _run_common_setup;;
  _run_one_setup;;
  pe <- attr _runs_have_different_pe_settings;;
  (if pe then s1 <- attr _run_one_suffix;; _stage_saved_pes_file s1
   else ret tt);;
  two <- _has_two_executables;;
  (if two then s1 <- attr _run_one_suffix;; _stage_saved_build_files s1
   else ret tt);;
  staged <- different_pes_or_two_executables;;
  (if staged then
     pe <- attr _runs_have_different_pe_settings;; _load_staged_xml_files pe
   else ret tt);;
  d1 <- attr _run_one_description;;
  logger_info ("Doing first run: " +:+ d1);;
  s1 <- attr _run_one_suffix;;
  success <- _run s1;;
  if success then
    set_status_run1 "PASS";;
    (* Second run *)
    _run_common_setup;;
    _run_two_setup;;
    pe <- attr _runs_have_different_pe_settings;;
    (if pe then s2 <- attr _run_two_suffix;; _stage_saved_pes_file s2
     else ret tt);;
    two <- _has_two_executables;;
    (if two then s2 <- attr _run_two_suffix;; _stage_saved_build_files s2
     else ret tt);;
    staged <- different_pes_or_two_executables;;
    (if staged then
       pe <- attr _runs_have_different_pe_settings;; _load_staged_xml_files pe
     else ret tt);;
    d2 <- attr _run_two_description;;
    logger_info ("Doing second run: " +:+ d2);;
    s2 <- attr _run_two_suffix;;
    success <- _run s2;;
    if success then
      set_status_run2 "PASS";;
      (* Compare results *)
      s1 <- attr _run_one_suffix;;
      s2 <- attr _run_two_suffix;;
      success <- _component_compare_test s1 s2;;
      if success then
        set_status_compare "PASS";;
        ret success
      else
        set_status_compare "FAIL";;
        ret false
    else
      set_status_run2 "FAIL";;
      ret false
  else
    set_status_run1 "FAIL";;
    ret false.

(** Returns a string specifying the status of run 1 *)
Definition get_run_one_status : M string := attr _status_run1.
(** Returns a string specifying the status of run 2 *)
Definition get_run_two_status : M string := attr _status_run2.
(** Returns a string specifying the status of the comparison between run 1
    and run 2 *)
Definition get_compare_status : M string := attr _status_compare.

End Methods.

Arguments attr {Case A} f st /.
Arguments set_status_run1 {Case} v st /.
Arguments set_status_run2 {Case} v st /.
Arguments set_status_compare {Case} v st /.

(** ** The fake of the unit tests *)

Module Fake.

(** [SystemTestsCompareTwoFake]: the three run hooks and the methods of
    the base class that [run] calls are overridden to do nothing;
    [_run] passes if its suffix is one of [_run_pass_suffixes], and
    [_component_compare_test] if [_compare_should_pass].  The build side
    is not overridden (and not exercised by the tests): the build hooks
    stay those of the class, the rest is left to do nothing. *)
Definition nothing : Impl.t unit :=
  {| Impl._run_common_setup := inr; Impl._run_one_setup := inr;
     Impl._run_two_setup := inr; Impl._pre_build := inr;
     Impl._adjust_pes_for_run_one := inr; Impl._adjust_pes_for_run_two := inr;
     Impl._build_one_setup := inr; Impl._build_two_setup := inr;
     Impl._run := fun _ c => inr (true, c);
     Impl._component_compare_test := fun _ _ c => inr (true, c);
     Impl._stage_saved_pes_file := fun _ => inr;
     Impl._stage_saved_build_files := fun _ => inr;
     Impl._load_staged_xml_files := fun _ => inr;
     Impl._save_build_files := fun _ => inr;
     Impl.SystemTestsCommon_build := fun _ _ => inr;
     Impl.read_xml := inr; Impl.flush := inr;
     Impl.restore_xml_file := fun _ _ c => c |}.

Definition impl (_run_pass_suffixes : list string) (_compare_should_pass : bool)
  : Impl.t unit :=
  let b := Impl.base_class nothing in
  {| Impl._run_common_setup := inr; Impl._run_one_setup := inr;
     Impl._run_two_setup := inr;
     Impl._pre_build := Impl._pre_build b;
     Impl._adjust_pes_for_run_one := Impl._adjust_pes_for_run_one b;
     Impl._adjust_pes_for_run_two := Impl._adjust_pes_for_run_two b;
     Impl._build_one_setup := Impl._build_one_setup b;
     Impl._build_two_setup := Impl._build_two_setup b;
     Impl._run := fun suffix c =>
       inr (bool_decide (suffix ∈ _run_pass_suffixes), c);
     Impl._component_compare_test := fun _ _ c =>
       inr (if _compare_should_pass then true else false, c);
     Impl._stage_saved_pes_file := fun _ => inr;
     Impl._stage_saved_build_files := fun _ => inr;
     Impl._load_staged_xml_files := fun _ => inr;
     Impl._save_build_files := Impl._save_build_files b;
     Impl.SystemTestsCommon_build := Impl.SystemTestsCommon_build b;
     Impl.read_xml := Impl.read_xml b; Impl.flush := Impl.flush b;
     Impl.restore_xml_file := Impl.restore_xml_file b |}.

(** The fake object: the implementations and the freshly constructed
    state, if the constructor accepts the arguments.  [run_one_suffix]
    has to be ['base'] (an assertion of the fake). *)
Definition __init__
    (two_builds_for_sharedlib two_builds_for_model
       runs_have_different_pe_settings : bool)
    (run_one_suffix run_two_suffix : string)
    (run_one_should_pass run_two_should_pass compare_should_pass : bool)
  : option (Impl.t unit * State unit) :=
  if negb (String.eqb run_one_suffix "base") then None else
  match __init__ two_builds_for_sharedlib two_builds_for_model
          runs_have_different_pe_settings run_two_suffix "" "" with
  | inl _ => None
  | inr o =>
      let _run_pass_suffixes :=
        ((if run_one_should_pass then [run_one_suffix] else []) ++
         (if run_two_should_pass then [run_two_suffix] else []))%list in
      Some (impl _run_pass_suffixes compare_should_pass,
            {| self := o; case := tt; saved_xml_files := ∅; log := [] |})
  end.

(** The fake does not record the calls of the logger. *)
Definition is_logger_info (c : Call) : bool :=
  match c with FUNCTION_logger_info _ => true | _ => false end.

Definition mytest_log (st : State unit) : list Call :=
  List.filter (fun c => negb (is_logger_info c)) (map fst (log st)).

(** [result = mytest.run()], then the log and the three statuses. *)
Definition exercise (mytest : option (Impl.t unit * State unit))
  : option ((Exn + bool) * list Call * (string * string * string)) :=
  match mytest with
  | None => None
  | Some (H, st) =>
      let '(result, st') := run H st in
      Some (result, mytest_log st',
            (_status_run1 (self st'), _status_run2 (self st'),
             _status_compare (self st')))
  end.

End Fake.

(** * Properties *)

(** ** [rstrip] *)

Lemma rstrip_decompose (s : string) :
  exists ws, s = rstrip s +:+ ws /\ all_space ws = true.
Proof.
  induction s as [|c s (ws & Hs & Hws)]; simpl.
  - exists ""; auto.
  - destruct (is_empty (rstrip s)) eqn:E, (isspace c) eqn:Ec; simpl.
    + exists (String c s). split; [reflexivity|].
      destruct (rstrip s); [|discriminate].
      change ("" +:+ ws) with ws in Hs. subst ws.
      simpl. rewrite Ec, Hws. reflexivity.
    + exists ws. split; [|exact Hws].
      change (String c s = String c (rstrip s +:+ ws)). congruence.
    + exists ws. split; [|exact Hws].
      change (String c s = String c (rstrip s +:+ ws)). congruence.
    + exists ws. split; [|exact Hws].
      change (String c s = String c (rstrip s +:+ ws)). congruence.
Qed.

Lemma rstrip_no_trailing_space (s : string) (c : ascii) :
  last_char (rstrip s) = Some c -> isspace c = false.
Proof.
  induction s as [|a s IH]; simpl; [discriminate|].
  destruct (rstrip s) as [|b r] eqn:E; simpl.
  - destruct (isspace a) eqn:Ea; simpl; [discriminate|]. congruence.
  - exact IH.
Qed.

Lemma rstrip_fixed (s : string) :
  (forall c, last_char s = Some c -> isspace c = false) -> rstrip s = s.
Proof.
  induction s as [|a s IH]; simpl; [reflexivity|]. intros Hl.
  destruct s as [|b s].
  - simpl. rewrite (Hl a eq_refl). reflexivity.
  - rewrite IH by exact Hl. reflexivity.
Qed.

Lemma rstrip_idempotent (s : string) : rstrip (rstrip s) = rstrip s.
Proof. apply rstrip_fixed, rstrip_no_trailing_space. Qed.

(** ** The constructor *)

Lemma string_neq_true (a b : string) : string_neq a b = true <-> a <> b.
Proof.
  unfold string_neq. destruct (String.eqb_spec a b); simpl; split; congruence.
Qed.

Lemma string_neq_false (a b : string) : string_neq a b = false <-> a = b.
Proof.
  unfold string_neq. destruct (String.eqb_spec a b); simpl; split; congruence.
Qed.

(** What the constructor does, by cases on the stripped suffix. *)
Lemma init_cases (tsl tm pe : bool) (s d1 d2 : string) :
  (rstrip s = "base" /\
   __init__ tsl tm pe s d1 d2 =
     inl (ConfigurationError
            "ERROR: Must have different suffixes for run one and run two")) \/
  (rstrip s = "original" /\
   __init__ tsl tm pe s d1 d2 =
     inl (ConfigurationError "ERROR: Run two suffix cannot be 'original'")) \/
  (rstrip s <> "base" /\ rstrip s <> "original" /\
   __init__ tsl tm pe s d1 d2 =
     inr {| _runs_have_different_pe_settings := pe;
            _two_builds_for_sharedlib := tsl;
            _two_builds_for_model := tm;
            _run_one_suffix := "base";
            _run_two_suffix := rstrip s;
            _run_one_description := d1;
            _run_two_description := d2;
            _status_run1 := "NOT RUN";
            _status_run2 := "NOT RUN";
            _status_compare := "NOT RUN" |}).
Proof.
  unfold __init__, expect.
  destruct (string_neq (rstrip s) "base") eqn:E1.
  - apply string_neq_true in E1.
    replace (string_neq "base" ORIGINAL_SUFFIX) with true by reflexivity.
    destruct (string_neq (rstrip s) ORIGINAL_SUFFIX) eqn:E2.
    + apply string_neq_true in E2. right; right. auto.
    + apply string_neq_false in E2. right; left. auto.
  - apply string_neq_false in E1. left. auto.
Qed.

(** Every object the constructor returns has two different suffixes, none
    of them the one of the original files, and has run nothing yet. *)
Lemma init_invariant (tsl tm pe : bool) (s d1 d2 : string) (o : SystemTestsCompareTwo) :
  __init__ tsl tm pe s d1 d2 = inr o ->
  _run_one_suffix o = "base" /\ _run_two_suffix o = rstrip s /\
  _run_one_suffix o <> _run_two_suffix o /\
  _run_one_suffix o <> ORIGINAL_SUFFIX /\ _run_two_suffix o <> ORIGINAL_SUFFIX /\
  _runs_have_different_pe_settings o = pe /\
  _two_builds_for_sharedlib o = tsl /\ _two_builds_for_model o = tm /\
  _status_run1 o = "NOT RUN" /\ _status_run2 o = "NOT RUN" /\
  _status_compare o = "NOT RUN".
Proof.
  intros Hi.
  destruct (init_cases tsl tm pe s d1 d2) as [[_ E]|[[_ E]|(N1 & N2 & E)]];
    rewrite E in Hi; try discriminate.
  injection Hi as <-. simpl. repeat split; try done.
Qed.

(** ** Collaborators that return *)

Definition returns {Case A : Type} (f : Case -> Exn + A) : Prop :=
  forall c, exists a, f c = inr a.

(** What [run] calls returns normally (no exception). *)
Record run_calls_return {Case : Type} (H : Impl.t Case) : Prop := {
  ok_run_common_setup : returns (Impl._run_common_setup H);
  ok_run_one_setup : returns (Impl._run_one_setup H);
  ok_run_two_setup : returns (Impl._run_two_setup H);
  ok_run : forall s, returns (Impl._run H s);
  ok_component_compare_test :
    forall s1 s2, returns (Impl._component_compare_test H s1 s2);
  ok_stage_saved_pes_file : forall s, returns (Impl._stage_saved_pes_file H s);
  ok_stage_saved_build_files :
    forall s, returns (Impl._stage_saved_build_files H s);
  ok_load_staged_xml_files : forall b, returns (Impl._load_staged_xml_files H b)
}.

(** What [build] calls returns normally. *)
Record build_calls_return {Case : Type} (H : Impl.t Case) : Prop := {
  ok_pre_build : returns (Impl._pre_build H);
  ok_adjust_pes_for_run_one : returns (Impl._adjust_pes_for_run_one H);
  ok_adjust_pes_for_run_two : returns (Impl._adjust_pes_for_run_two H);
  ok_build_one_setup : returns (Impl._build_one_setup H);
  ok_build_two_setup : returns (Impl._build_two_setup H);
  ok_build_stage_saved_pes_file :
    forall s, returns (Impl._stage_saved_pes_file H s);
  ok_build_load_staged_xml_files :
    forall b, returns (Impl._load_staged_xml_files H b);
  ok_save_build_files : forall s, returns (Impl._save_build_files H s);
  ok_SystemTestsCommon_build :
    forall a b, returns (Impl.SystemTestsCommon_build H a b);
  ok_read_xml : returns (Impl.read_xml H);
  ok_flush : returns (Impl.flush H)
}.

Lemma nothing_run_calls_return : run_calls_return Fake.nothing.
Proof. split; repeat intro; eexists; reflexivity. Qed.

Lemma nothing_build_calls_return : build_calls_return Fake.nothing.
Proof. split; repeat intro; eexists; reflexivity. Qed.

Lemma fake_run_calls_return (l : list string) (b : bool) :
  run_calls_return (Fake.impl l b).
Proof. split; repeat intro; eexists; reflexivity. Qed.

(** ** The trace of [run] *)

(** How far a run gets. *)
Inductive RunResult : Type := Run1Fails | Run2Fails | CompareFails | AllPass.

Definition staging (o : SystemTestsCompareTwo) (suffix : string) : list Event :=
  (if _runs_have_different_pe_settings o
   then [(METHOD_stage_saved_pes_file suffix, Returned_None)] else []) ++
  (if _two_builds_for_sharedlib o || _two_builds_for_model o
   then [(METHOD_stage_saved_build_files suffix, Returned_None)] else []) ++
  (if _runs_have_different_pe_settings o
      || (_two_builds_for_sharedlib o || _two_builds_for_model o)
   then [(METHOD_load_staged_xml_files (_runs_have_different_pe_settings o),
          Returned_None)]
   else []).

Definition phase_one (o : SystemTestsCompareTwo) (success : bool) : list Event :=
  [(METHOD_run_common_setup, Returned_None); (METHOD_run_one_setup, Returned_None)]
  ++ staging o (_run_one_suffix o)
  ++ [(FUNCTION_logger_info ("Doing first run: " +:+ _run_one_description o),
       Returned_None);
      (METHOD_run (_run_one_suffix o), Returned success)].

Definition phase_two (o : SystemTestsCompareTwo) (success : bool) : list Event :=
  [(METHOD_run_common_setup, Returned_None); (METHOD_run_two_setup, Returned_None)]
  ++ staging o (_run_two_suffix o)
  ++ [(FUNCTION_logger_info ("Doing second run: " +:+ _run_two_description o),
       Returned_None);
      (METHOD_run (_run_two_suffix o), Returned success)].

Definition comparison (o : SystemTestsCompareTwo) (success : bool) : list Event :=
  [(METHOD_component_compare_test (_run_one_suffix o) (_run_two_suffix o),
    Returned success)].

Definition run_events (o : SystemTestsCompareTwo) (r : RunResult) : list Event :=
  match r with
  | Run1Fails => phase_one o false
  | Run2Fails => phase_one o true ++ phase_two o false
  | CompareFails => phase_one o true ++ phase_two o true ++ comparison o false
  | AllPass => phase_one o true ++ phase_two o true ++ comparison o true
  end.

Definition after_run (o : SystemTestsCompareTwo) (r : RunResult)
  : SystemTestsCompareTwo :=
  match r with
  | Run1Fails => with_status_run1 "FAIL" o
  | Run2Fails => with_status_run2 "FAIL" (with_status_run1 "PASS" o)
  | CompareFails =>
      with_status_compare "FAIL"
        (with_status_run2 "PASS" (with_status_run1 "PASS" o))
  | AllPass =>
      with_status_compare "PASS"
        (with_status_run2 "PASS" (with_status_run1 "PASS" o))
  end.

Definition all_pass (r : RunResult) : bool :=
  match r with AllPass => true | _ => false end.

Section RunTrace.
Context {Case : Type} (H : Impl.t Case) (ok : run_calls_return H).

Ltac run_call :=
  match goal with
  | |- context [Impl._run_common_setup H ?c] =>
      destruct (ok_run_common_setup H ok c) as [? ->]
  | |- context [Impl._run_one_setup H ?c] =>
      destruct (ok_run_one_setup H ok c) as [? ->]
  | |- context [Impl._run_two_setup H ?c] =>
      destruct (ok_run_two_setup H ok c) as [? ->]
  | |- context [Impl._stage_saved_pes_file H ?s ?c] =>
      destruct (ok_stage_saved_pes_file H ok s c) as [? ->]
  | |- context [Impl._stage_saved_build_files H ?s ?c] =>
      destruct (ok_stage_saved_build_files H ok s c) as [? ->]
  | |- context [Impl._load_staged_xml_files H ?b ?c] =>
      destruct (ok_load_staged_xml_files H ok b c) as [? ->]
  | |- context [Impl._run H ?s ?c] =>
      destruct (ok_run H ok s c) as [[[] ?] ->]
  | |- context [Impl._component_compare_test H ?s1 ?s2 ?c] =>
      destruct (ok_component_compare_test H ok s1 s2 c) as [[[] ?] ->]
  end; simpl.

(** With collaborators that return, [run] returns; it leaves the case
    directory's saved files alone, changes the object only in its
    statuses, and the calls it makes are those of [run_events]. *)
Lemma run_trace (st : State Case) :
  exists (r : RunResult) (case' : Case),
    run H st =
      (inr (all_pass r),
       {| self := after_run (self st) r; case := case';
          saved_xml_files := saved_xml_files st;
          log := log st ++ run_events (self st) r |}).
Proof.
  destruct st as [[pe tsl tm s1 s2 d1 d2 r1 r2 rc] c sv lg].
  unfold run, _run_common_setup, _run_one_setup, _run_two_setup,
    _stage_saved_pes_file, _stage_saved_build_files, _load_staged_xml_files,
    _run, _component_compare_test, logger_info,
    different_pes_or_two_executables, _has_two_executables,
    bind, ret, call, call_bool, logged.
  destruct pe, tsl, tm; simpl; repeat run_call;
    unfold set_self; simpl; rewrite <- ?List.app_assoc;
    solve [ exists AllPass; eexists; reflexivity
          | exists CompareFails; eexists; reflexivity
          | exists Run2Fails; eexists; reflexivity
          | exists Run1Fails; eexists; reflexivity ].
Qed.

End RunTrace.

(** ** Reading a trace *)

Definition called (c : Call) (tr : list Event) : Prop :=
  exists o, (c, o) ∈ tr.
Definition succeeded (c : Call) (tr : list Event) : Prop :=
  (c, Returned true) ∈ tr.
Definition failed (c : Call) (tr : list Event) : Prop :=
  (c, Returned false) ∈ tr.

(** The calls of a trace that are of a given kind, in order. *)
Definition calls_of (kind : Call -> bool) (tr : list Event) : list Call :=
  List.filter kind (map fst tr).

Definition is_run (c : Call) : bool :=
  match c with METHOD_run _ => true | _ => false end.
Definition is_compare (c : Call) : bool :=
  match c with METHOD_component_compare_test _ _ => true | _ => false end.
Definition is_stage_pes (c : Call) : bool :=
  match c with METHOD_stage_saved_pes_file _ => true | _ => false end.
Definition is_stage_build (c : Call) : bool :=
  match c with METHOD_stage_saved_build_files _ => true | _ => false end.
Definition is_load (c : Call) : bool :=
  match c with METHOD_load_staged_xml_files _ => true | _ => false end.

Ltac trace_solver := unfold called, succeeded, failed in *; set_solver.

(** The events of a trace whose call is of a given kind, in order. *)
Definition events_of (kind : Call -> bool) (tr : list Event) : list Event :=
  List.filter (fun ev => kind (fst ev)) tr.

Lemma elem_of_events_of (kind : Call -> bool) (c : Call) (o : Outcome)
    (tr : list Event) :
  kind c = true -> ((c, o) ∈ tr <-> (c, o) ∈ events_of kind tr).
Proof.
  intros Hk. unfold events_of. rewrite !list_elem_of_In, filter_In. simpl.
  tauto.
Qed.

Lemma calls_of_events_of (kind : Call -> bool) (tr : list Event) :
  calls_of kind tr = map fst (events_of kind tr).
Proof.
  unfold calls_of, events_of. induction tr as [|[c o] tr IH]; simpl; [done|].
  destruct (kind c); simpl; by rewrite IH.
Qed.

Definition second_phase_started (r : RunResult) : bool :=
  match r with Run1Fails => false | _ => true end.

Section Projections.
Variables (o : SystemTestsCompareTwo) (r : RunResult).
Let s1 := _run_one_suffix o.
Let s2 := _run_two_suffix o.

Ltac project :=
  subst s1 s2; destruct o as [[] [] [] ? ? ? ? ? ? ?], r; reflexivity.

Lemma run_events_run :
  events_of is_run (run_events o r) =
    match r with
    | Run1Fails => [(METHOD_run s1, Returned false)]
    | Run2Fails => [(METHOD_run s1, Returned true); (METHOD_run s2, Returned false)]
    | _ => [(METHOD_run s1, Returned true); (METHOD_run s2, Returned true)]
    end.
Proof. project. Qed.

Lemma run_events_compare :
  events_of is_compare (run_events o r) =
    match r with
    | CompareFails => [(METHOD_component_compare_test s1 s2, Returned false)]
    | AllPass => [(METHOD_component_compare_test s1 s2, Returned true)]
    | _ => []
    end.
Proof. project. Qed.


Lemma run_events_stage_pes :
  calls_of is_stage_pes (run_events o r) =
    if _runs_have_different_pe_settings o then
      METHOD_stage_saved_pes_file s1 ::
      (if second_phase_started r then [METHOD_stage_saved_pes_file s2] else [])
    else [].
Proof. project. Qed.

Lemma run_events_stage_build :
  calls_of is_stage_build (run_events o r) =
    if _two_builds_for_sharedlib o || _two_builds_for_model o then
      METHOD_stage_saved_build_files s1 ::
      (if second_phase_started r then [METHOD_stage_saved_build_files s2] else [])
    else [].
Proof. project. Qed.

Lemma run_events_load :
  calls_of is_load (run_events o r) =
    if _runs_have_different_pe_settings o
       || (_two_builds_for_sharedlib o || _two_builds_for_model o) then
      METHOD_load_staged_xml_files (_runs_have_different_pe_settings o) ::
      (if second_phase_started r
       then [METHOD_load_staged_xml_files (_runs_have_different_pe_settings o)]
       else [])
    else [].
Proof. project. Qed.


End Projections.

Lemma elem_of_run (s : string) (o : Outcome) (tr : list Event) :
  (METHOD_run s, o) ∈ tr <-> (METHOD_run s, o) ∈ events_of is_run tr.
Proof. by apply elem_of_events_of. Qed.

Lemma elem_of_compare (s1 s2 : string) (o : Outcome) (tr : list Event) :
  (METHOD_component_compare_test s1 s2, o) ∈ tr <->
  (METHOD_component_compare_test s1 s2, o) ∈ events_of is_compare tr.
Proof. by apply elem_of_events_of. Qed.

Lemma called_run (s : string) (tr : list Event) :
  called (METHOD_run s) tr <-> called (METHOD_run s) (events_of is_run tr).
Proof. unfold called. by setoid_rewrite <- elem_of_run. Qed.

Lemma called_compare_test (s1 s2 : string) (tr : list Event) :
  called (METHOD_component_compare_test s1 s2) tr <->
  called (METHOD_component_compare_test s1 s2) (events_of is_compare tr).
Proof. unfold called. by setoid_rewrite <- elem_of_compare. Qed.

(** The events of a trace tell how far the run got, when the two suffixes
    differ. *)
Section Dictionary.
Variables (o : SystemTestsCompareTwo) (r : RunResult).
Let s1 := _run_one_suffix o.
Let s2 := _run_two_suffix o.
Let tr := run_events o r.
Hypothesis suffixes_differ : s1 <> s2.

Ltac by_projection lem :=
  unfold succeeded, failed, tr;
  first [ rewrite called_run | rewrite called_compare_test
        | rewrite elem_of_run | rewrite elem_of_compare ];
  rewrite ?run_events_run, ?run_events_compare;
  fold s1 s2; clear tr; clearbody s1 s2; destruct r; trace_solver.

Lemma failed_run_one : failed (METHOD_run s1) tr <-> r = Run1Fails.
Proof. by_projection run_events_run. Qed.

Lemma succeeded_run_one : succeeded (METHOD_run s1) tr <-> r <> Run1Fails.
Proof. by_projection run_events_run. Qed.


Lemma failed_run_two : failed (METHOD_run s2) tr <-> r = Run2Fails.
Proof. by_projection run_events_run. Qed.

Lemma succeeded_run_two :
  succeeded (METHOD_run s2) tr <-> r = CompareFails \/ r = AllPass.
Proof. by_projection run_events_run. Qed.


Lemma failed_compare :
  failed (METHOD_component_compare_test s1 s2) tr <-> r = CompareFails.
Proof. by_projection run_events_compare. Qed.

Lemma succeeded_compare :
  succeeded (METHOD_component_compare_test s1 s2) tr <-> r = AllPass.
Proof. by_projection run_events_compare. Qed.
End Dictionary.


Section RunProperties.
Context {Case : Type} (H : Impl.t Case).

End RunProperties.

(** The three statuses as the accessors report them. *)
Definition statuses {Case : Type} (st : State Case)
  : (Exn + string) * (Exn + string) * (Exn + string) :=
  (fst (get_run_one_status st), fst (get_run_two_status st),
   fst (get_compare_status st)).

Definition is_staging_or_run (c : Call) : bool :=
  is_stage_pes c || is_stage_build c || is_load c || is_run c.

(** What is staged before a phase runs, the reload if anything was staged,
    and the run. *)
Definition staged_files (o : SystemTestsCompareTwo) (suffix : string) : list Call :=
  (if _runs_have_different_pe_settings o
   then [METHOD_stage_saved_pes_file suffix] else []) ++
  (if _two_builds_for_sharedlib o || _two_builds_for_model o
   then [METHOD_stage_saved_build_files suffix] else []).

Definition stage_reload_run (o : SystemTestsCompareTwo) (suffix : string)
  : list Call :=
  staged_files o suffix ++
  match staged_files o suffix with
  | [] => []
  | _ :: _ => [METHOD_load_staged_xml_files (_runs_have_different_pe_settings o)]
  end ++
  [METHOD_run suffix].

Lemma run_events_staging_or_run (o : SystemTestsCompareTwo) (r : RunResult) :
  calls_of is_staging_or_run (run_events o r) =
    stage_reload_run o (_run_one_suffix o) ++
    (if second_phase_started r then stage_reload_run o (_run_two_suffix o)
     else []).
Proof. destruct o as [[] [] [] ? ? ? ? ? ? ?], r; reflexivity. Qed.

(** The suffixes a call is tagged with. *)
Definition call_suffixes (c : Call) : list string :=
  match c with
  | METHOD_run s | METHOD_stage_saved_pes_file s
  | METHOD_stage_saved_build_files s | METHOD_save_build_files s => [s]
  | METHOD_component_compare_test s1 s2 => [s1; s2]
  | FUNCTION_restore_or_save_xml_file _ s | FUNCTION_save_xml_file _ s => [s]
  | _ => []
  end.

Lemma run_events_suffixes (o : SystemTestsCompareTwo) (r : RunResult) :
  Forall (fun ev => forall s, s ∈ call_suffixes (fst ev) ->
                     s = _run_one_suffix o \/ s = _run_two_suffix o)
    (run_events o r).
Proof.
  destruct o as [[] [] [] ? ? ? ? ? ? ?], r;
    repeat apply Forall_cons_2; try apply Forall_nil_2; simpl; set_solver.
Qed.

Section RunAndStatus.
Context {Case : Type} (H : Impl.t Case).

(** C2.  With collaborators that return, on an object that has run nothing
    yet: [run] returns true if and only if both calls of [_run] and the
    call of [_component_compare_test] succeeded, and afterwards the three
    accessors report (FAIL, NOT RUN, NOT RUN) if the first run failed,
    (PASS, FAIL, NOT RUN) if the first passed and the second failed,
    (PASS, PASS, FAIL) if both passed and the comparison failed, and
    (PASS, PASS, PASS) if all three succeeded; one of the four is the
    case. *)
Theorem run_result_and_statuses (st : State Case) :
  run_calls_return H ->
  _run_one_suffix (self st) <> _run_two_suffix (self st) ->
  statuses st = (inr "NOT RUN", inr "NOT RUN", inr "NOT RUN") ->
  let s1 := _run_one_suffix (self st) in
  let s2 := _run_two_suffix (self st) in
  let compare := METHOD_component_compare_test s1 s2 in
  exists (result : bool) (st' : State Case) (tr : list Event),
    run H st = (inr result, st') /\ log st' = log st ++ tr /\
    (result = true <->
       succeeded (METHOD_run s1) tr /\ succeeded (METHOD_run s2) tr /\
       succeeded compare tr) /\
    (failed (METHOD_run s1) tr ->
       statuses st' = (inr "FAIL", inr "NOT RUN", inr "NOT RUN")) /\
    (succeeded (METHOD_run s1) tr -> failed (METHOD_run s2) tr ->
       statuses st' = (inr "PASS", inr "FAIL", inr "NOT RUN")) /\
    (succeeded (METHOD_run s1) tr -> succeeded (METHOD_run s2) tr ->
     failed compare tr ->
       statuses st' = (inr "PASS", inr "PASS", inr "FAIL")) /\
    (succeeded (METHOD_run s1) tr -> succeeded (METHOD_run s2) tr ->
     succeeded compare tr ->
       statuses st' = (inr "PASS", inr "PASS", inr "PASS")) /\
    (failed (METHOD_run s1) tr \/
     succeeded (METHOD_run s1) tr /\ failed (METHOD_run s2) tr \/
     succeeded (METHOD_run s1) tr /\ succeeded (METHOD_run s2) tr /\
       failed compare tr \/
     succeeded (METHOD_run s1) tr /\ succeeded (METHOD_run s2) tr /\
       succeeded compare tr).
Proof.
  intros ok Hne Hst s1 s2 compare.
  destruct (run_trace H ok st) as (r & c' & E).
  eexists _, _, _. split; [exact E|]. split; [reflexivity|].
  subst s1 s2 compare.
  rewrite succeeded_run_one, succeeded_run_two, succeeded_compare,
    failed_run_one, failed_run_two, failed_compare by exact Hne.
  destruct st as [[pe tsl tm s1 s2 d1 d2 r1 r2 rc] c sv lg].
  unfold statuses in *. simpl in *. injection Hst as -> -> ->.
  destruct r; simpl; split_and!; try (intros; congruence); try tauto;
    intuition congruence.
Qed.

(** C7.  For a test with one build and one PE layout (the three flags
    false), [run] stages no PE file and no build files and reloads
    nothing.  The first run is made and either fails or succeeds; if it
    succeeded the second run is made and either fails or succeeds.  So the
    calls of [_run] are one with the first suffix and, if that succeeded,
    one with the second suffix; [_component_compare_test] is called once,
    with the two suffixes, if both runs succeeded, and not at all
    otherwise. *)
Theorem run_without_staging (st : State Case) :
  run_calls_return H ->
  _run_one_suffix (self st) <> _run_two_suffix (self st) ->
  _two_builds_for_sharedlib (self st) = false ->
  _two_builds_for_model (self st) = false ->
  _runs_have_different_pe_settings (self st) = false ->
  let s1 := _run_one_suffix (self st) in
  let s2 := _run_two_suffix (self st) in
  exists (result : bool) (st' : State Case) (tr : list Event),
    run H st = (inr result, st') /\ log st' = log st ++ tr /\
    calls_of is_stage_pes tr = [] /\
    calls_of is_stage_build tr = [] /\
    calls_of is_load tr = [] /\
    (failed (METHOD_run s1) tr \/ succeeded (METHOD_run s1) tr) /\
    (succeeded (METHOD_run s1) tr ->
       failed (METHOD_run s2) tr \/ succeeded (METHOD_run s2) tr) /\
    (failed (METHOD_run s1) tr -> calls_of is_run tr = [METHOD_run s1]) /\
    (succeeded (METHOD_run s1) tr ->
       calls_of is_run tr = [METHOD_run s1; METHOD_run s2]) /\
    (succeeded (METHOD_run s1) tr -> succeeded (METHOD_run s2) tr ->
       calls_of is_compare tr = [METHOD_component_compare_test s1 s2]) /\
    (failed (METHOD_run s1) tr \/ failed (METHOD_run s2) tr ->
       calls_of is_compare tr = []).
Proof.
  intros ok Hne Htsl Htm Hpe s1 s2.
  destruct (run_trace H ok st) as (r & c' & E).
  eexists _, _, _. split; [exact E|]. split; [reflexivity|].
  subst s1 s2.
  rewrite succeeded_run_one, succeeded_run_two,
    failed_run_one, failed_run_two by exact Hne.
  rewrite run_events_stage_pes, run_events_stage_build, run_events_load.
  rewrite !calls_of_events_of, run_events_run, run_events_compare.
  rewrite Htsl, Htm, Hpe. simpl.
  destruct r; split_and!; try done; intuition congruence.
Qed.

(** C8.  The first run of [run] is made and either fails or succeeds.
    The staging calls, the reloads and the runs of [run], in the
    order they are made, are those of [stage_reload_run] for the first
    suffix, followed, if the first run succeeded, by those for the second
    suffix: per phase the staged files, then, if anything was staged, one
    reload with [modified_pes] the flag for different PE settings, then the
    run.  With two builds for the model and the same PE settings only the
    build files with the phase's suffix are staged and the reload gets
    [modified_pes=False]; with different PE settings the PE file with the
    phase's suffix is staged and the reload gets [modified_pes=True]. *)
Theorem run_stages_then_reloads (st : State Case) :
  run_calls_return H ->
  _run_one_suffix (self st) <> _run_two_suffix (self st) ->
  let o := self st in
  let pe := _runs_have_different_pe_settings o in
  let s1 := _run_one_suffix o in
  let s2 := _run_two_suffix o in
  exists (result : bool) (st' : State Case) (tr : list Event),
    run H st = (inr result, st') /\ log st' = log st ++ tr /\
    (failed (METHOD_run s1) tr \/ succeeded (METHOD_run s1) tr) /\
    (failed (METHOD_run s1) tr ->
       calls_of is_staging_or_run tr = stage_reload_run o s1) /\
    (succeeded (METHOD_run s1) tr ->
       calls_of is_staging_or_run tr =
         stage_reload_run o s1 ++ stage_reload_run o s2) /\
    (forall s, staged_files o s <> [] ->
       stage_reload_run o s =
         staged_files o s ++ [METHOD_load_staged_xml_files pe; METHOD_run s]) /\
    (forall s, staged_files o s = [] -> stage_reload_run o s = [METHOD_run s]) /\
    (forall s, _two_builds_for_model o = true -> pe = false ->
       stage_reload_run o s =
         [METHOD_stage_saved_build_files s;
          METHOD_load_staged_xml_files false; METHOD_run s]) /\
    (forall s, pe = true ->
       stage_reload_run o s =
         METHOD_stage_saved_pes_file s ::
         (if _two_builds_for_sharedlib o || _two_builds_for_model o
          then [METHOD_stage_saved_build_files s] else []) ++
         [METHOD_load_staged_xml_files true; METHOD_run s]).
Proof.
  intros ok Hne o pe s1 s2.
  destruct (run_trace H ok st) as (r & c' & E).
  eexists _, _, _. split; [exact E|]. split; [reflexivity|].
  subst s1 s2 pe o.
  rewrite succeeded_run_one, failed_run_one by exact Hne.
  rewrite run_events_staging_or_run.
  split_and!.
  - destruct r; first [by left | by right].
  - intros ->. simpl. by rewrite app_nil_r.
  - destruct r; simpl; congruence.
  - intros s. unfold stage_reload_run. destruct (staged_files _ s); done.
  - intros s. unfold stage_reload_run. by intros ->.
  - intros s. unfold stage_reload_run, staged_files. intros -> ->.
    rewrite orb_true_r. done.
  - intros s. unfold stage_reload_run, staged_files. intros ->.
    destruct (_ || _); done.
Qed.

End RunAndStatus.

(** ** The trace of [build] *)

Lemma bind_returns {Case A B : Type} (m : M Case A) (k : A -> M Case B)
    (st st' : State Case) (a : A) :
  m st = (inr a, st') -> bind m k st = k a st'.
Proof. unfold bind. by intros ->. Qed.

(** Saving a copy that is not there yet. *)
Definition add_saved (x : string * string) (sv : gset (string * string))
  : gset (string * string) :=
  if bool_decide (x ∈ sv) then sv else {[ x ]} ∪ sv.

Lemma add_saved_elem (x : string * string) (sv : gset (string * string)) :
  x ∈ add_saved x sv.
Proof. unfold add_saved. case_bool_decide; set_solver. Qed.

Lemma add_saved_subseteq (x : string * string) (sv : gset (string * string)) :
  sv ⊆ add_saved x sv.
Proof. unfold add_saved. case_bool_decide; set_solver. Qed.

Lemma add_saved_id (x : string * string) (sv : gset (string * string)) :
  x ∈ sv -> add_saved x sv = sv.
Proof. unfold add_saved. intros. by rewrite bool_decide_true. Qed.

Definition has_two_executables (o : SystemTestsCompareTwo) : bool :=
  _two_builds_for_sharedlib o || _two_builds_for_model o.

(** The decision of [_needs_two_builds], which never reaches its [raise]. *)
Definition two_builds_needed (o : SystemTestsCompareTwo)
    (sharedlib_only model_only : bool) : bool :=
  if negb sharedlib_only && negb model_only
  then _two_builds_for_sharedlib o || _two_builds_for_model o
  else if sharedlib_only then _two_builds_for_sharedlib o
  else _two_builds_for_model o.

Definition saved_after_restore (o : SystemTestsCompareTwo)
    (sv : gset (string * string)) : gset (string * string) :=
  let sv1 := if _runs_have_different_pe_settings o
             then add_saved ("env_mach_pes", ORIGINAL_SUFFIX) sv else sv in
  if has_two_executables o then add_saved ("env_build", ORIGINAL_SUFFIX) sv1
  else sv1.

Definition restore_events (o : SystemTestsCompareTwo)
    (sv : gset (string * string)) : list Event :=
  let pe := _runs_have_different_pe_settings o in
  let e_pes := bool_decide (("env_mach_pes", ORIGINAL_SUFFIX) ∈ sv) in
  let sv1 := if pe then add_saved ("env_mach_pes", ORIGINAL_SUFFIX) sv else sv in
  let e_build := bool_decide (("env_build", ORIGINAL_SUFFIX) ∈ sv1) in
  (if pe
   then [(FUNCTION_restore_or_save_xml_file "env_mach_pes" ORIGINAL_SUFFIX,
          Returned e_pes)] else []) ++
  (if has_two_executables o
   then [(FUNCTION_restore_or_save_xml_file "env_build" ORIGINAL_SUFFIX,
          Returned e_build)] else []) ++
  (if (pe && e_pes) || (has_two_executables o && e_build)
   then [(METHOD_case_read_xml, Returned_None)] else []).

Definition saved_after_create (o : SystemTestsCompareTwo)
    (sv : gset (string * string)) : gset (string * string) :=
  add_saved ("env_mach_pes", _run_two_suffix o)
    (add_saved ("env_mach_pes", _run_one_suffix o) sv).

Definition create_pe_events (o : SystemTestsCompareTwo)
    (sv : gset (string * string)) : list Event :=
  (if bool_decide (("env_mach_pes", _run_one_suffix o) ∈ sv) then []
   else [(METHOD_adjust_pes_for_run_one, Returned_None);
         (METHOD_case_flush, Returned_None);
         (FUNCTION_save_xml_file "env_mach_pes" (_run_one_suffix o),
          Returned_None)]) ++
  (if bool_decide (("env_mach_pes", _run_two_suffix o) ∈
                     add_saved ("env_mach_pes", _run_one_suffix o) sv) then []
   else [(METHOD_adjust_pes_for_run_two, Returned_None);
         (METHOD_case_flush, Returned_None);
         (FUNCTION_save_xml_file "env_mach_pes" (_run_two_suffix o),
          Returned_None)]).

(** Staging the PE file of a build and loading it. *)
Definition stage_pes_events (o : SystemTestsCompareTwo) (suffix : string)
  : list Event :=
  if _runs_have_different_pe_settings o
  then [(METHOD_stage_saved_pes_file suffix, Returned_None);
        (METHOD_load_staged_xml_files true, Returned_None)]
  else [].

Definition two_builds_events (o : SystemTestsCompareTwo)
    (sharedlib_only model_only : bool) : list Event :=
  stage_pes_events o (_run_one_suffix o) ++
  [(METHOD_build_one_setup, Returned_None);
   (METHOD_SystemTestsCommon_build sharedlib_only model_only, Returned_None);
   (METHOD_save_build_files (_run_one_suffix o), Returned_None)] ++
  stage_pes_events o (_run_two_suffix o) ++
  [(METHOD_build_two_setup, Returned_None);
   (METHOD_SystemTestsCommon_build sharedlib_only model_only, Returned_None);
   (METHOD_save_build_files (_run_two_suffix o), Returned_None)].

Definition one_build_events (o : SystemTestsCompareTwo)
    (sharedlib_only model_only : bool) : list Event :=
  stage_pes_events o (_run_one_suffix o) ++
  [(METHOD_SystemTestsCommon_build sharedlib_only model_only, Returned_None)].

(** The calls of [build] before [_pre_build] ... *)
Definition before_pre_build (o : SystemTestsCompareTwo)
    (sv : gset (string * string)) : list Event :=
  restore_events o sv ++
  (if _runs_have_different_pe_settings o
   then create_pe_events o (saved_after_restore o sv) else []).

(** ... and after it. *)
Definition after_pre_build (o : SystemTestsCompareTwo)
    (sharedlib_only model_only : bool) : list Event :=
  if two_builds_needed o sharedlib_only model_only
  then two_builds_events o sharedlib_only model_only
  else one_build_events o sharedlib_only model_only.

Definition build_events (o : SystemTestsCompareTwo)
    (sv : gset (string * string)) (sharedlib_only model_only : bool)
  : list Event :=
  before_pre_build o sv ++ [(METHOD_pre_build, Returned_None)] ++
  after_pre_build o sharedlib_only model_only.

Definition saved_after_build (o : SystemTestsCompareTwo)
    (sv : gset (string * string)) : gset (string * string) :=
  if _runs_have_different_pe_settings o
  then saved_after_create o (saved_after_restore o sv)
  else saved_after_restore o sv.

Section BuildTrace.
Context {Case : Type} (H : Impl.t Case).

(** [_needs_two_builds] returns for every pair of arguments. *)
Lemma needs_two_builds_returns (sharedlib_only model_only : bool)
    (st : State Case) :
  _needs_two_builds sharedlib_only model_only st =
    (inr (two_builds_needed (self st) sharedlib_only model_only), st).
Proof.
  destruct st as [[pe tsl tm s1 s2 d1 d2 r1 r2 rc] c sv lg].
  destruct sharedlib_only, model_only, tsl, tm; reflexivity.
Qed.

Lemma has_two_executables_returns (st : State Case) :
  _has_two_executables st = (inr (has_two_executables (self st)), st).
Proof.
  destruct st as [[pe tsl tm s1 s2 d1 d2 r1 r2 rc] c sv lg].
  destruct tsl, tm; reflexivity.
Qed.

(** If both PE files are saved already, [_create_pe_files] does nothing. *)
Lemma create_pe_files_saved (st : State Case) :
  ("env_mach_pes", _run_one_suffix (self st)) ∈ saved_xml_files st ->
  ("env_mach_pes", _run_two_suffix (self st)) ∈ saved_xml_files st ->
  _create_pe_files H st = (inr tt, st).
Proof.
  intros H1 H2. unfold _create_pe_files, bind, ret, saved_xml_file_exists; simpl.
  rewrite (bool_decide_true _ H1); simpl.
  rewrite (bool_decide_true _ H2); reflexivity.
Qed.

Context (ok : build_calls_return H).

Ltac build_call :=
  match goal with
  | |- context [Impl._pre_build H ?c] =>
      destruct (ok_pre_build H ok c) as [? ->]
  | |- context [Impl._adjust_pes_for_run_one H ?c] =>
      destruct (ok_adjust_pes_for_run_one H ok c) as [? ->]
  | |- context [Impl._adjust_pes_for_run_two H ?c] =>
      destruct (ok_adjust_pes_for_run_two H ok c) as [? ->]
  | |- context [Impl._build_one_setup H ?c] =>
      destruct (ok_build_one_setup H ok c) as [? ->]
  | |- context [Impl._build_two_setup H ?c] =>
      destruct (ok_build_two_setup H ok c) as [? ->]
  | |- context [Impl._stage_saved_pes_file H ?s ?c] =>
      destruct (ok_build_stage_saved_pes_file H ok s c) as [? ->]
  | |- context [Impl._load_staged_xml_files H ?b ?c] =>
      destruct (ok_build_load_staged_xml_files H ok b c) as [? ->]
  | |- context [Impl._save_build_files H ?s ?c] =>
      destruct (ok_save_build_files H ok s c) as [? ->]
  | |- context [Impl.SystemTestsCommon_build H ?a ?b ?c] =>
      destruct (ok_SystemTestsCommon_build H ok a b c) as [? ->]
  | |- context [Impl.read_xml H ?c] =>
      destruct (ok_read_xml H ok c) as [? ->]
  | |- context [Impl.flush H ?c] =>
      destruct (ok_flush H ok c) as [? ->]
  end; simpl.

Ltac decide_saved :=
  match goal with
  | |- context [bool_decide (?x ∈ ?s)] =>
      first [ rewrite (bool_decide_true (x ∈ s)) by set_solver
            | rewrite (bool_decide_false (x ∈ s)) by set_solver ]
  end; simpl.

Lemma restore_trace (st : State Case) :
  exists case' : Case,
    _pre_build_restore_or_save_xml_files H st =
      (inr tt,
       {| self := self st; case := case';
          saved_xml_files := saved_after_restore (self st) (saved_xml_files st);
          log := log st ++ restore_events (self st) (saved_xml_files st) |}).
Proof.
  destruct st as [[pe tsl tm s1 s2 d1 d2 r1 r2 rc] c sv lg].
  unfold _pre_build_restore_or_save_xml_files, _has_two_executables,
    restore_or_save_xml_file, case_read_xml, bind, ret, call, logged,
    saved_after_restore, restore_events, has_two_executables, add_saved.
  destruct (decide (("env_mach_pes", ORIGINAL_SUFFIX) ∈ sv)),
    (decide (("env_build", ORIGINAL_SUFFIX) ∈ sv));
    destruct pe, tsl, tm; simpl;
    repeat first [ decide_saved | build_call ];
    rewrite <- ?List.app_assoc, ?app_nil_r; eexists; reflexivity.
Qed.

Lemma create_pe_files_trace (st : State Case) :
  exists case' : Case,
    _create_pe_files H st =
      (inr tt,
       {| self := self st; case := case';
          saved_xml_files := saved_after_create (self st) (saved_xml_files st);
          log := log st ++ create_pe_events (self st) (saved_xml_files st) |}).
Proof.
  destruct st as [[pe tsl tm s1 s2 d1 d2 r1 r2 rc] c sv lg].
  unfold _create_pe_files, saved_xml_file_exists, save_xml_file,
    _adjust_pes_for_run_one, _adjust_pes_for_run_two, case_flush,
    bind, ret, call, logged, saved_after_create, create_pe_events, add_saved.
  simpl.
  destruct (decide (("env_mach_pes", s1) ∈ sv));
    [ destruct (decide (("env_mach_pes", s2) ∈ sv))
    | destruct (decide (("env_mach_pes", s2) ∈ {[("env_mach_pes", s1)]} ∪ sv)) ];
    repeat first [ decide_saved | build_call ];
    rewrite <- ?List.app_assoc, ?app_nil_r; eexists; reflexivity.
Qed.

Lemma do_two_builds_trace (sharedlib_only model_only : bool) (st : State Case) :
  exists case' : Case,
    _do_two_builds H sharedlib_only model_only st =
      (inr tt,
       {| self := self st; case := case';
          saved_xml_files := saved_xml_files st;
          log := log st ++
                 two_builds_events (self st) sharedlib_only model_only |}).
Proof.
  destruct st as [[pe tsl tm s1 s2 d1 d2 r1 r2 rc] c sv lg].
  unfold _do_two_builds, _stage_saved_pes_file, _load_staged_xml_files,
    _build_one_setup, _build_two_setup, SystemTestsCommon_build,
    _save_build_files, bind, ret, call, logged, two_builds_events,
    stage_pes_events.
  destruct pe; simpl; repeat build_call;
    rewrite <- ?List.app_assoc; eexists; reflexivity.
Qed.

Lemma one_build_trace (sharedlib_only model_only : bool) (st : State Case) :
  exists case' : Case,
    (pe <- attr _runs_have_different_pe_settings;;
     (if pe then
        s1 <- attr _run_one_suffix;;
        _stage_saved_pes_file H s1;;
        _load_staged_xml_files H true
      else ret tt);;
     SystemTestsCommon_build H sharedlib_only model_only)%monad st =
      (inr tt,
       {| self := self st; case := case';
          saved_xml_files := saved_xml_files st;
          log := log st ++
                 one_build_events (self st) sharedlib_only model_only |}).
Proof.
  destruct st as [[pe tsl tm s1 s2 d1 d2 r1 r2 rc] c sv lg].
  unfold _stage_saved_pes_file, _load_staged_xml_files,
    SystemTestsCommon_build, bind, ret, call, logged, one_build_events,
    stage_pes_events.
  destruct pe; simpl; repeat build_call;
    rewrite <- ?List.app_assoc; eexists; reflexivity.
Qed.

(** The calls of [build] up to, and without, [_pre_build]. *)
Definition build_prelude : M Case unit :=
  (_pre_build_restore_or_save_xml_files H;;
   pe <- attr _runs_have_different_pe_settings;;
   if pe then _create_pe_files H else ret tt)%monad.

Lemma build_prelude_trace (st : State Case) :
  exists case' : Case,
    build_prelude st =
      (inr tt,
       {| self := self st; case := case';
          saved_xml_files := saved_after_build (self st) (saved_xml_files st);
          log := log st ++ before_pre_build (self st) (saved_xml_files st) |}).
Proof.
  unfold build_prelude.
  destruct (restore_trace st) as (c1 & E1).
  rewrite (bind_returns _ _ _ _ _ E1).
  unfold bind at 1, attr at 1; simpl.
  unfold saved_after_build, before_pre_build.
  destruct (_runs_have_different_pe_settings (self st)) eqn:Epe.
  - match goal with |- context [_create_pe_files H ?s] =>
      destruct (create_pe_files_trace s) as (c2 & E2) end.
    rewrite E2. simpl. rewrite <- List.app_assoc. eexists; reflexivity.
  - unfold ret. rewrite app_nil_r. eexists; reflexivity.
Qed.

(** With collaborators that return, [build] returns, for every pair of
    arguments; the calls it makes are those of [build_events]. *)
Lemma build_trace (sharedlib_only model_only : bool) (st : State Case) :
  exists case' : Case,
    build H sharedlib_only model_only st =
      (inr tt,
       {| self := self st; case := case';
          saved_xml_files := saved_after_build (self st) (saved_xml_files st);
          log := log st ++
                 build_events (self st) (saved_xml_files st)
                   sharedlib_only model_only |}).
Proof.
  destruct (build_prelude_trace st) as (c1 & E1).
  unfold build_prelude in E1. unfold build.
  unfold bind at 1. unfold bind at 1 in E1.
  destruct (_pre_build_restore_or_save_xml_files H st) as [[e|[]] st1];
    [discriminate|].
  unfold bind at 1. unfold bind at 1 in E1.
  destruct (attr _runs_have_different_pe_settings st1) as [[e|pe] st2];
    [discriminate|].
  unfold bind at 1. rewrite E1.
  unfold bind at 1, _pre_build, call at 1; simpl.
  destruct (ok_pre_build H ok c1) as [c2 ->].
  unfold bind at 1. rewrite needs_two_builds_returns. simpl.
  unfold build_events, after_pre_build.
  destruct (two_builds_needed (self st) sharedlib_only model_only).
  - match goal with |- context [_do_two_builds H _ _ ?s] =>
      destruct (do_two_builds_trace sharedlib_only model_only s) as (c3 & E3)
    end.
    rewrite E3. simpl. rewrite <- !List.app_assoc. eexists; reflexivity.
  - match goal with |- context [bind _ _ ?s] =>
      destruct (one_build_trace sharedlib_only model_only s) as (c3 & E3)
    end.
    rewrite E3. simpl. rewrite <- !List.app_assoc. eexists; reflexivity.
Qed.

End BuildTrace.

(** ** Reading the trace of [build] *)

Definition is_pre_build (c : Call) : bool :=
  match c with METHOD_pre_build => true | _ => false end.
Definition is_common_build (c : Call) : bool :=
  match c with METHOD_SystemTestsCommon_build _ _ => true | _ => false end.
Definition is_adjust_one (c : Call) : bool :=
  match c with METHOD_adjust_pes_for_run_one => true | _ => false end.
Definition is_adjust_two (c : Call) : bool :=
  match c with METHOD_adjust_pes_for_run_two => true | _ => false end.
Definition is_flush (c : Call) : bool :=
  match c with METHOD_case_flush => true | _ => false end.
Definition is_save_xml_file (c : Call) : bool :=
  match c with FUNCTION_save_xml_file _ _ => true | _ => false end.
(** The calls of the restore-or-save step and of [_create_pe_files]. *)
Definition is_prelude_call (c : Call) : bool :=
  match c with
  | FUNCTION_restore_or_save_xml_file _ _ | METHOD_case_read_xml
  | METHOD_adjust_pes_for_run_one | METHOD_adjust_pes_for_run_two
  | METHOD_case_flush | FUNCTION_save_xml_file _ _ => true
  | _ => false
  end.

Lemma calls_of_app (kind : Call -> bool) (l1 l2 : list Event) :
  calls_of kind (l1 ++ l2) = calls_of kind l1 ++ calls_of kind l2.
Proof. unfold calls_of. by rewrite map_app, List.filter_app. Qed.

Ltac decide_all :=
  repeat match goal with
         | |- context [bool_decide ?P] => destruct (bool_decide P)
         end.

Section BuildProjections.
Variables (o : SystemTestsCompareTwo) (sv : gset (string * string)).
Variables (sharedlib_only model_only : bool).

Lemma before_pre_build_kinds :
  calls_of is_pre_build (before_pre_build o sv) = [] /\
  calls_of is_common_build (before_pre_build o sv) = [].
Proof.
  unfold before_pre_build, restore_events, create_pe_events. cbv zeta.
  decide_all;
    destruct (_runs_have_different_pe_settings o), (has_two_executables o);
    done.
Qed.

Lemma after_pre_build_kinds :
  calls_of is_pre_build (after_pre_build o sharedlib_only model_only) = [] /\
  calls_of is_prelude_call (after_pre_build o sharedlib_only model_only) = [] /\
  calls_of is_common_build (after_pre_build o sharedlib_only model_only) =
    if two_builds_needed o sharedlib_only model_only
    then [METHOD_SystemTestsCommon_build sharedlib_only model_only;
          METHOD_SystemTestsCommon_build sharedlib_only model_only]
    else [METHOD_SystemTestsCommon_build sharedlib_only model_only].
Proof.
  unfold after_pre_build, two_builds_events, one_build_events, stage_pes_events.
  destruct (two_builds_needed o sharedlib_only model_only);
    destruct o as [[] ? ? ? ? ? ? ? ? ?]; done.
Qed.

Lemma build_events_builds :
  calls_of is_common_build (build_events o sv sharedlib_only model_only) =
    if two_builds_needed o sharedlib_only model_only
    then [METHOD_SystemTestsCommon_build sharedlib_only model_only;
          METHOD_SystemTestsCommon_build sharedlib_only model_only]
    else [METHOD_SystemTestsCommon_build sharedlib_only model_only].
Proof.
  unfold build_events. rewrite !calls_of_app.
  destruct before_pre_build_kinds as [_ ->].
  destruct after_pre_build_kinds as (_ & _ & ->). done.
Qed.

Lemma build_events_adjust (kind : Call -> bool) :
  kind = is_adjust_one \/ kind = is_adjust_two \/ kind = is_save_xml_file ->
  calls_of kind (build_events o sv sharedlib_only model_only) =
    if _runs_have_different_pe_settings o
    then calls_of kind (create_pe_events o (saved_after_restore o sv))
    else [].
Proof.
  intros Hk. unfold build_events, before_pre_build. rewrite !calls_of_app.
  assert (calls_of kind (restore_events o sv) = []) as ->.
  { unfold restore_events.
    destruct Hk as [->|[->| ->]];
      destruct (_runs_have_different_pe_settings o), (has_two_executables o);
      simpl; decide_all; done. }
  assert (calls_of kind [(METHOD_pre_build, Returned_None)] = []) as ->
    by (destruct Hk as [->|[->| ->]]; done).
  assert (calls_of kind (after_pre_build o sharedlib_only model_only) = []) as ->.
  { unfold after_pre_build, two_builds_events, one_build_events,
      stage_pes_events.
    destruct Hk as [->|[->| ->]];
      destruct (two_builds_needed o sharedlib_only model_only),
        (_runs_have_different_pe_settings o); done. }
  rewrite !app_nil_r. simpl.
  destruct (_runs_have_different_pe_settings o); done.
Qed.
End BuildProjections.

(** What [_create_pe_files] calls, by what is saved already. *)
Section CreatePeEvents.
Variables (o : SystemTestsCompareTwo) (sv : gset (string * string)).
Abbreviation s1 := (_run_one_suffix o).
Abbreviation s2 := (_run_two_suffix o).
Abbreviation tr := (create_pe_events o sv).

Lemma create_pe_events_at_most_once :
  length (calls_of is_adjust_one tr) <= 1 /\
  length (calls_of is_adjust_two tr) <= 1 /\
  length (calls_of is_flush tr) =
    length (calls_of is_adjust_one tr) + length (calls_of is_adjust_two tr) /\
  length (calls_of is_save_xml_file tr) = length (calls_of is_flush tr).
Proof.
  unfold create_pe_events. decide_all; simpl; lia.
Qed.

Lemma create_pe_events_saved_one :
  ("env_mach_pes", s1) ∈ sv ->
  calls_of is_adjust_one tr = [] /\
  ~ called (FUNCTION_save_xml_file "env_mach_pes" s1) tr.
Proof.
  intros H1. unfold create_pe_events, called.
  rewrite (bool_decide_true _ H1), (add_saved_id _ _ H1).
  case_bool_decide as H2; simpl; (split; [done|]); intros [out Hin];
    repeat (apply elem_of_cons in Hin as [Heq|Hin]; [try discriminate|]);
    try (by apply elem_of_nil in Hin).
  injection Heq as Heq _. congruence.
Qed.

Lemma create_pe_events_saved_two :
  ("env_mach_pes", s2) ∈ sv ->
  calls_of is_adjust_two tr = [] /\
  ~ called (FUNCTION_save_xml_file "env_mach_pes" s2) tr.
Proof.
  intros H2. unfold create_pe_events, called.
  rewrite (bool_decide_true (_ ∈ add_saved _ _))
    by (by apply add_saved_subseteq).
  rewrite app_nil_r.
  case_bool_decide as H1; simpl; (split; [done|]); intros [out Hin];
    repeat (apply elem_of_cons in Hin as [Heq|Hin]; [try discriminate|]);
    try (by apply elem_of_nil in Hin).
  injection Heq as Heq _. congruence.
Qed.

Lemma create_pe_events_saved_both :
  ("env_mach_pes", s1) ∈ sv -> ("env_mach_pes", s2) ∈ sv -> tr = [].
Proof.
  intros H1 H2. unfold create_pe_events.
  rewrite (bool_decide_true _ H1), (add_saved_id _ _ H1).
  by rewrite (bool_decide_true _ H2).
Qed.

Lemma saved_after_create_elem :
  ("env_mach_pes", s1) ∈ saved_after_create o sv /\
  ("env_mach_pes", s2) ∈ saved_after_create o sv.
Proof.
  unfold saved_after_create. split.
  - apply add_saved_subseteq, add_saved_elem.
  - apply add_saved_elem.
Qed.
End CreatePeEvents.

Lemma saved_after_restore_subseteq (o : SystemTestsCompareTwo)
    (sv : gset (string * string)) : sv ⊆ saved_after_restore o sv.
Proof.
  unfold saved_after_restore.
  destruct (_runs_have_different_pe_settings o), (has_two_executables o);
    repeat (etrans; [|apply add_saved_subseteq]); done.
Qed.

Section BuildProperties.
Context {Case : Type} (H : Impl.t Case).

(** C4 (as the code has it).  With both [sharedlib_only] and [model_only]
    set, [_needs_two_builds] does not raise: its second branch answers for
    the shared library alone, and the [raise ValueError] of the last branch
    is never reached, whatever the arguments. *)
Theorem needs_two_builds_never_raises (st : State Case) :
  _needs_two_builds true true st =
    (inr (_two_builds_for_sharedlib (self st)), st) /\
  forall sharedlib_only model_only : bool,
    exists two_builds_needed : bool,
      _needs_two_builds sharedlib_only model_only st =
        (inr two_builds_needed, st).
Proof.
  split.
  - by rewrite needs_two_builds_returns.
  - intros a b. eexists. apply needs_two_builds_returns.
Qed.

(** C5.  For the three valid scopes (not both [sharedlib_only] and
    [model_only]), [_needs_two_builds] answers with the decision of the
    spec, and [build] calls [SystemTestsCommon.build] twice if the answer
    is true and once otherwise, with the scope it was given. *)
Theorem build_one_or_two_builds (sharedlib_only model_only : bool)
    (st : State Case) :
  build_calls_return H ->
  sharedlib_only && model_only = false ->
  let two_for_sharedlib := _two_builds_for_sharedlib (self st) in
  let two_for_model := _two_builds_for_model (self st) in
  let decision :=
    (negb sharedlib_only && negb model_only
       && (two_for_sharedlib || two_for_model))
    || (sharedlib_only && negb model_only && two_for_sharedlib)
    || (model_only && negb sharedlib_only && two_for_model) in
  _needs_two_builds sharedlib_only model_only st = (inr decision, st) /\
  exists (st' : State Case) (tr : list Event),
    build H sharedlib_only model_only st = (inr tt, st') /\
    log st' = log st ++ tr /\
    calls_of is_common_build tr =
      if decision
      then [METHOD_SystemTestsCommon_build sharedlib_only model_only;
            METHOD_SystemTestsCommon_build sharedlib_only model_only]
      else [METHOD_SystemTestsCommon_build sharedlib_only model_only].
Proof.
  intros ok Hvalid tsl tm decision.
  assert (two_builds_needed (self st) sharedlib_only model_only = decision) as Hd.
  { subst decision tsl tm. unfold two_builds_needed.
    destruct sharedlib_only, model_only, (_two_builds_for_sharedlib (self st)),
      (_two_builds_for_model (self st)); done. }
  split.
  - by rewrite needs_two_builds_returns, Hd.
  - destruct (build_trace H ok sharedlib_only model_only st) as (c' & E).
    eexists _, _. split; [exact E|]. split; [reflexivity|].
    by rewrite build_events_builds, Hd.
Qed.

(** C6.  [_create_pe_files] calls each PE hook at most once, and a second
    execution right after the first changes nothing and calls nothing.  For
    each phase: if the PE file with the phase's suffix is saved already, the
    phase's hook is not called and no file is saved under that suffix; every
    flush and every saved file goes with one call of a hook, and nothing is
    called if both files are saved.  The same holds over two calls of
    [build] of a test with different PE settings: the second calls no hook
    and saves no PE file. *)
Theorem create_pe_files_idempotent (st : State Case) :
  build_calls_return H ->
  let s1 := _run_one_suffix (self st) in
  let s2 := _run_two_suffix (self st) in
  (exists (st1 : State Case) (tr : list Event),
     _create_pe_files H st = (inr tt, st1) /\ log st1 = log st ++ tr /\
     _create_pe_files H st1 = (inr tt, st1) /\
     length (calls_of is_adjust_one tr) <= 1 /\
     length (calls_of is_adjust_two tr) <= 1 /\
     length (calls_of is_flush tr) =
       length (calls_of is_adjust_one tr) + length (calls_of is_adjust_two tr) /\
     length (calls_of is_save_xml_file tr) = length (calls_of is_flush tr) /\
     (("env_mach_pes", s1) ∈ saved_xml_files st ->
        calls_of is_adjust_one tr = [] /\
        ~ called (FUNCTION_save_xml_file "env_mach_pes" s1) tr) /\
     (("env_mach_pes", s2) ∈ saved_xml_files st ->
        calls_of is_adjust_two tr = [] /\
        ~ called (FUNCTION_save_xml_file "env_mach_pes" s2) tr) /\
     (("env_mach_pes", s1) ∈ saved_xml_files st ->
      ("env_mach_pes", s2) ∈ saved_xml_files st -> tr = [])) /\
  (_runs_have_different_pe_settings (self st) = true ->
   forall a b a' b' : bool,
     exists (st1 st2 : State Case) (tr1 tr2 : list Event),
       build H a b st = (inr tt, st1) /\ log st1 = log st ++ tr1 /\
       build H a' b' st1 = (inr tt, st2) /\ log st2 = log st1 ++ tr2 /\
       length (calls_of is_adjust_one (tr1 ++ tr2)) <= 1 /\
       length (calls_of is_adjust_two (tr1 ++ tr2)) <= 1 /\
       calls_of is_adjust_one tr2 = [] /\
       calls_of is_adjust_two tr2 = [] /\
       calls_of is_save_xml_file tr2 = []).
Proof.
  intros ok s1 s2. split.
  - destruct (create_pe_files_trace H ok st) as (c1 & E1).
    eexists _, _. split; [exact E1|]. split; [reflexivity|].
    split.
    { apply create_pe_files_saved; simpl; apply saved_after_create_elem. }
    destruct (create_pe_events_at_most_once (self st) (saved_xml_files st))
      as (? & ? & ? & ?).
    split_and!; try done.
    + apply create_pe_events_saved_one.
    + apply create_pe_events_saved_two.
    + apply create_pe_events_saved_both.
  - intros Hpe a b a' b'.
    destruct (build_trace H ok a b st) as (c1 & E1).
    match type of E1 with _ = (_, ?s) => set (st1 := s) in * end.
    destruct (build_trace H ok a' b' st1) as (c2 & E2).
    eexists _, _, _, _. split; [exact E1|]. split; [reflexivity|].
    split; [exact E2|]. split; [reflexivity|].
    assert (create_pe_events (self st1)
              (saved_after_restore (self st1) (saved_xml_files st1)) = [])
      as Hnone.
    { apply create_pe_events_saved_both;
        apply saved_after_restore_subseteq; simpl;
        unfold saved_after_build; rewrite Hpe; apply saved_after_create_elem. }
    rewrite !calls_of_app, !length_app.
    rewrite !(build_events_adjust _ _ _ _ is_adjust_one) by auto.
    rewrite !(build_events_adjust _ _ _ _ is_adjust_two) by auto.
    rewrite !(build_events_adjust _ _ _ _ is_save_xml_file) by auto.
    rewrite Hnone. change (self st1) with (self st). rewrite Hpe. simpl.
    destruct (create_pe_events_at_most_once (self st)
                (saved_after_restore (self st) (saved_xml_files st)))
      as (? & ? & _).
    split_and!; try done; lia.
Qed.

(** C9.  In every call of [build], [_pre_build] is called exactly once:
    after the calls of the restore-or-save step and of [_create_pe_files]
    (the prelude, none of which comes later), and before every call of
    [SystemTestsCommon.build], of which one or two follow. *)
Theorem build_calls_pre_build_once (sharedlib_only model_only : bool)
    (st : State Case) :
  build_calls_return H ->
  exists (st1 st' : State Case) (before after : list Event),
    build_prelude H st = (inr tt, st1) /\ log st1 = log st ++ before /\
    build H sharedlib_only model_only st = (inr tt, st') /\
    log st' = log st ++ before ++ [(METHOD_pre_build, Returned_None)] ++ after /\
    calls_of is_pre_build (before ++ after) = [] /\
    calls_of is_common_build before = [] /\
    calls_of is_prelude_call after = [] /\
    (length (calls_of is_common_build after) = 1 \/
     length (calls_of is_common_build after) = 2).
Proof.
  intros ok.
  destruct (build_prelude_trace H ok st) as (c1 & E1).
  destruct (build_trace H ok sharedlib_only model_only st) as (c2 & E2).
  eexists _, _, _, _. split; [exact E1|]. split; [reflexivity|].
  split; [exact E2|]. split; [reflexivity|].
  destruct (before_pre_build_kinds (self st) (saved_xml_files st)) as [Hb1 Hb2].
  destruct (after_pre_build_kinds (self st) sharedlib_only model_only)
    as (Ha1 & Ha2 & Ha3).
  rewrite calls_of_app, Hb1, Ha1, Ha3.
  split_and!; try done.
  destruct (two_builds_needed _ _ _); simpl; auto.
Qed.

End BuildProperties.

(** ** The constructor and the suffix of the second run *)

(** C3 (amended).  For every [run_two_suffix], the constructor raises a
    configuration error exactly if the suffix without its trailing
    whitespace is ['base'] or ['original'] (so, in particular, if the suffix
    itself is); for every other suffix it returns an object whose three
    statuses are ['NOT RUN']. *)
Theorem init_checks_stripped_suffix (tsl tm pe : bool) (s d1 d2 : string) :
  ((exists msg, __init__ tsl tm pe s d1 d2 = inl (ConfigurationError msg)) /\
   (rstrip s = "base" \/ rstrip s = "original"))
  \/
  ((exists o, __init__ tsl tm pe s d1 d2 = inr o /\
      _status_run1 o = "NOT RUN" /\ _status_run2 o = "NOT RUN" /\
      _status_compare o = "NOT RUN" /\
      _run_one_suffix o = "base" /\ _run_two_suffix o = rstrip s) /\
   rstrip s <> "base" /\ rstrip s <> "original" /\
   s <> "base" /\ s <> "original").
Proof.
  destruct (init_cases tsl tm pe s d1 d2) as [[E ->]|[[E ->]|(N1 & N2 & ->)]].
  - left. eauto.
  - left. eauto.
  - right. split; [eexists; split_and!; reflexivity|].
    split_and!; try done; intros ->; by vm_compute in N1, N2.
Qed.

(** A suffix other than ['base'] and ['original'] that the constructor
    refuses: ['base '], with a space at its end. *)
Lemma init_refuses_base_and_space :
  "base " <> "base" /\ "base " <> "original" /\
  __init__ false false false "base " "" "" =
    inl (ConfigurationError
           "ERROR: Must have different suffixes for run one and run two").
Proof. split_and!; [discriminate | discriminate | reflexivity]. Qed.

Example init_refuses_original_and_newline :
  __init__ false false false ("original" +:+ String (ascii_of_nat 10) "") "" "" =
    inl (ConfigurationError "ERROR: Run two suffix cannot be 'original'").
Proof. reflexivity. Qed.

Example init_default_suffix :
  exists o, __init__ false false false default_run_two_suffix "" "" = inr o /\
            _run_two_suffix o = "test".
Proof. eexists. split; reflexivity. Qed.

Lemma rstrip_changes (s : string) (c : ascii) :
  last_char s = Some c -> isspace c = true -> rstrip s <> s.
Proof.
  intros Hl Hc E. rewrite <- E in Hl.
  apply rstrip_no_trailing_space in Hl. congruence.
Qed.

Section StrippedSuffix.
Context {Case : Type} (H : Impl.t Case).

(** C10.  The constructor strips the trailing whitespace of
    [run_two_suffix] before it checks and stores it: it raises a
    configuration error whenever the stripped suffix is ['base'] or
    ['original'], and the object it returns otherwise holds the stripped
    suffix (which is not the suffix given, if that ends in whitespace).
    In [run], every call that takes a suffix takes ['base'] or the stripped
    suffix: the staging, the run and the comparison of the second phase are
    tagged with the stripped suffix. *)
Theorem init_strips_run_two_suffix (tsl tm pe : bool) (s d1 d2 : string) :
  (rstrip s = "base" \/ rstrip s = "original" ->
   exists msg, __init__ tsl tm pe s d1 d2 = inl (ConfigurationError msg)) /\
  (forall o, __init__ tsl tm pe s d1 d2 = inr o ->
     _run_two_suffix o = rstrip s /\
     (forall c, last_char s = Some c -> isspace c = true ->
                _run_two_suffix o <> s) /\
     forall st : State Case,
       run_calls_return H -> self st = o ->
       exists (result : bool) (st' : State Case) (tr : list Event),
         run H st = (inr result, st') /\ log st' = log st ++ tr /\
         (forall c out x, (c, out) ∈ tr -> x ∈ call_suffixes c ->
                          x = "base" \/ x = rstrip s) /\
         (succeeded (METHOD_run "base") tr ->
            calls_of is_run tr = [METHOD_run "base"; METHOD_run (rstrip s)] /\
            calls_of is_stage_pes tr =
              (if pe then [METHOD_stage_saved_pes_file "base";
                           METHOD_stage_saved_pes_file (rstrip s)] else []) /\
            calls_of is_stage_build tr =
              (if tsl || tm
               then [METHOD_stage_saved_build_files "base";
                     METHOD_stage_saved_build_files (rstrip s)] else [])) /\
         (succeeded (METHOD_run "base") tr ->
          succeeded (METHOD_run (rstrip s)) tr ->
            calls_of is_compare tr =
              [METHOD_component_compare_test "base" (rstrip s)])).
Proof.
  split.
  - intros Hs.
    destruct (init_cases tsl tm pe s d1 d2) as [[_ ->]|[[_ ->]|(N1 & N2 & _)]];
      [eauto | eauto | tauto].
  - intros o Ho.
    destruct (init_invariant _ _ _ _ _ _ _ Ho)
      as (E1 & E2 & Hne & _ & _ & Epe & Etsl & Etm & _).
    split; [exact E2|]. split.
    { intros c Hl Hc. rewrite E2. by eapply rstrip_changes. }
    intros st ok Hst. subst o.
    destruct (run_trace H ok st) as (r & c' & E).
    eexists _, _, _. split; [exact E|]. split; [reflexivity|].
    rewrite <- E1, <- E2.
    rewrite succeeded_run_one, succeeded_run_two by exact Hne.
    split_and!.
    + intros c out x Hin Hx.
      pose proof (run_events_suffixes (self st) r) as Hall.
      rewrite Forall_forall in Hall. exact (Hall _ Hin x Hx).
    + intros Hr. rewrite calls_of_events_of, run_events_run.
      rewrite run_events_stage_pes, run_events_stage_build.
      rewrite Epe, Etsl, Etm.
      destruct r; try done.
    + intros _ Hr. rewrite calls_of_events_of, run_events_compare.
      destruct Hr as [-> | ->]; done.
Qed.

End StrippedSuffix.

(** * Concrete runs *)

(** ** The unit tests *)

Module Tests.

Definition run_one_suffix : string := "base".
Definition run_two_suffix : string := "run2".

Example test_no_failures_one_build_call_sequence :
  option_map (fun r => snd (fst r))
    (Fake.exercise
       (Fake.__init__ false false false run_one_suffix run_two_suffix
          true true true)) =
  Some [METHOD_run_common_setup; METHOD_run_one_setup;
        METHOD_run run_one_suffix;
        METHOD_run_common_setup; METHOD_run_two_setup;
        METHOD_run run_two_suffix;
        METHOD_component_compare_test run_one_suffix run_two_suffix].
Proof. vm_compute. reflexivity. Qed.

Example test_no_failures_two_builds_call_sequence :
  option_map (fun r => snd (fst r))
    (Fake.exercise
       (Fake.__init__ false true false run_one_suffix run_two_suffix
          true true true)) =
  Some [METHOD_run_common_setup; METHOD_run_one_setup;
        METHOD_stage_saved_build_files run_one_suffix;
        METHOD_load_staged_xml_files false;
        METHOD_run run_one_suffix;
        METHOD_run_common_setup; METHOD_run_two_setup;
        METHOD_stage_saved_build_files run_two_suffix;
        METHOD_load_staged_xml_files false;
        METHOD_run run_two_suffix;
        METHOD_component_compare_test run_one_suffix run_two_suffix].
Proof. vm_compute. reflexivity. Qed.

Example test_no_failures_different_pes_call_sequence :
  option_map (fun r => snd (fst r))
    (Fake.exercise
       (Fake.__init__ false false true run_one_suffix run_two_suffix
          true true true)) =
  Some [METHOD_run_common_setup; METHOD_run_one_setup;
        METHOD_stage_saved_pes_file run_one_suffix;
        METHOD_load_staged_xml_files true;
        METHOD_run run_one_suffix;
        METHOD_run_common_setup; METHOD_run_two_setup;
        METHOD_stage_saved_pes_file run_two_suffix;
        METHOD_load_staged_xml_files true;
        METHOD_run run_two_suffix;
        METHOD_component_compare_test run_one_suffix run_two_suffix].
Proof. vm_compute. reflexivity. Qed.

Example test_no_failures_status :
  option_map (fun r => (fst (fst r), snd r))
    (Fake.exercise
       (Fake.__init__ false false false "base" "test" true true true)) =
  Some (inr true, ("PASS", "PASS", "PASS")).
Proof. vm_compute. reflexivity. Qed.

Example test_run1fail_run2_and_compare_not_done :
  option_map (fun r => List.filter (fun c => is_run c || is_compare c)
                         (snd (fst r)))
    (Fake.exercise
       (Fake.__init__ false false false run_one_suffix run_two_suffix
          false true true)) =
  Some [METHOD_run run_one_suffix].
Proof. vm_compute. reflexivity. Qed.

Example test_run1fail_status :
  option_map (fun r => (fst (fst r), snd r))
    (Fake.exercise
       (Fake.__init__ false false false "base" "test" false true true)) =
  Some (inr false, ("FAIL", "NOT RUN", "NOT RUN")).
Proof. vm_compute. reflexivity. Qed.

Example test_run2fail_compare_not_done :
  option_map (fun r => List.filter is_compare (snd (fst r)))
    (Fake.exercise
       (Fake.__init__ false false false "base" "test" true false true)) =
  Some [].
Proof. vm_compute. reflexivity. Qed.

Example test_run2fail_status :
  option_map (fun r => (fst (fst r), snd r))
    (Fake.exercise
       (Fake.__init__ false false false "base" "test" true false true)) =
  Some (inr false, ("PASS", "FAIL", "NOT RUN")).
Proof. vm_compute. reflexivity. Qed.

Example test_compare_fails_status :
  option_map (fun r => (fst (fst r), snd r))
    (Fake.exercise
       (Fake.__init__ false false false "base" "test" true true false)) =
  Some (inr false, ("PASS", "PASS", "FAIL")).
Proof. vm_compute. reflexivity. Qed.

End Tests.

(** ** A class that overrides nothing *)

(** With the hooks of [SystemTestsCompareTwo] itself, [run] raises at its
    first call, whatever the rest does. *)
Lemma run_of_base_class_raises {Case : Type} (inherited : Impl.t Case)
    (st : State Case) :
  fst (run (Impl.base_class inherited) st) = inl (NotImplementedError "").
Proof. reflexivity. Qed.

(** A build of the base class with one PE layout and one build needs no
    hook but [_pre_build]. *)
Example build_of_base_class :
  let o := {| _runs_have_different_pe_settings := false;
              _two_builds_for_sharedlib := false;
              _two_builds_for_model := false;
              _run_one_suffix := "base"; _run_two_suffix := "test";
              _run_one_description := ""; _run_two_description := "";
              _status_run1 := "NOT RUN"; _status_run2 := "NOT RUN";
              _status_compare := "NOT RUN" |} in
  let st := {| self := o; case := tt; saved_xml_files := ∅; log := [] |} in
  let '(result, st') := build (Impl.base_class Fake.nothing) false false st in
  result = inr tt /\
  map fst (log st') =
    [METHOD_pre_build; METHOD_SystemTestsCommon_build false false].
Proof. vm_compute. split; reflexivity. Qed.

(** [build] with both [sharedlib_only] and [model_only] set: no
    [ValueError], the build is made with both flags. *)
Example build_with_both_scopes_returns :
  let o := {| _runs_have_different_pe_settings := false;
              _two_builds_for_sharedlib := false;
              _two_builds_for_model := true;
              _run_one_suffix := "base"; _run_two_suffix := "test";
              _run_one_description := ""; _run_two_description := "";
              _status_run1 := "NOT RUN"; _status_run2 := "NOT RUN";
              _status_compare := "NOT RUN" |} in
  let st := {| self := o; case := tt; saved_xml_files := ∅; log := [] |} in
  let '(result, st') := build Fake.nothing true true st in
  result = inr tt /\
  map fst (log st') =
    [FUNCTION_restore_or_save_xml_file "env_build" "original";
     METHOD_pre_build; METHOD_SystemTestsCommon_build true true].
Proof. vm_compute. split; reflexivity. Qed.

(** ** An object and a state to run the theorems on *)

Definition example_object : SystemTestsCompareTwo :=
  {| _runs_have_different_pe_settings := true;
     _two_builds_for_sharedlib := false;
     _two_builds_for_model := true;
     _run_one_suffix := "base"; _run_two_suffix := "test";
     _run_one_description := ""; _run_two_description := "";
     _status_run1 := "NOT RUN"; _status_run2 := "NOT RUN";
     _status_compare := "NOT RUN" |}.

Definition plain_object : SystemTestsCompareTwo :=
  {| _runs_have_different_pe_settings := false;
     _two_builds_for_sharedlib := false;
     _two_builds_for_model := false;
     _run_one_suffix := "base"; _run_two_suffix := "test";
     _run_one_description := ""; _run_two_description := "";
     _status_run1 := "NOT RUN"; _status_run2 := "NOT RUN";
     _status_compare := "NOT RUN" |}.

Definition state_of (o : SystemTestsCompareTwo) : State unit :=
  {| self := o; case := tt; saved_xml_files := ∅; log := [] |}.

Example example_object_constructed :
  __init__ false true true "test " "" "" = inr example_object /\
  __init__ false false false "test" "" "" = inr plain_object.
Proof. split; reflexivity. Qed.

(** The second run fails. *)
Definition example_impl : Impl.t unit := Fake.impl ["base"] true.


Lemma run_result_and_statuses_witness :
  run_calls_return example_impl /\
  _run_one_suffix example_object <> _run_two_suffix example_object /\
  statuses (state_of example_object) =
    (inr "NOT RUN", inr "NOT RUN", inr "NOT RUN") /\
  exists (result : bool) (st' : State unit) (tr : list Event),
    run example_impl (state_of example_object) = (inr result, st') /\
    (failed (METHOD_run "base") tr ->
       statuses st' = (inr "FAIL", inr "NOT RUN", inr "NOT RUN")).
Proof.
  split; [apply fake_run_calls_return|]. split; [discriminate|].
  split; [reflexivity|].
  destruct (run_result_and_statuses example_impl (state_of example_object)
              (fake_run_calls_return _ _) ltac:(discriminate) eq_refl)
    as (result & st' & tr & E & _ & _ & Hf & _).
  exists result, st', tr. split; [exact E | exact Hf].
Defined.

Lemma run_without_staging_witness :
  run_calls_return example_impl /\
  _run_one_suffix plain_object <> _run_two_suffix plain_object /\
  _two_builds_for_sharedlib plain_object = false /\
  _two_builds_for_model plain_object = false /\
  _runs_have_different_pe_settings plain_object = false /\
  exists (result : bool) (st' : State unit) (tr : list Event),
    run example_impl (state_of plain_object) = (inr result, st') /\
    calls_of is_stage_pes tr = [] /\ calls_of is_stage_build tr = [] /\
    calls_of is_load tr = [].
Proof.
  split; [apply fake_run_calls_return|]. split; [discriminate|].
  split_and!; try reflexivity.
  destruct (run_without_staging example_impl (state_of plain_object)
              (fake_run_calls_return _ _) ltac:(discriminate)
              eq_refl eq_refl eq_refl)
    as (result & st' & tr & E & _ & H1 & H2 & H3 & _).
  exists result, st', tr. split_and!; assumption.
Defined.

Lemma run_stages_then_reloads_witness :
  run_calls_return example_impl /\
  _run_one_suffix example_object <> _run_two_suffix example_object /\
  exists (result : bool) (st' : State unit) (tr : list Event),
    run example_impl (state_of example_object) = (inr result, st') /\
    (succeeded (METHOD_run "base") tr ->
       calls_of is_staging_or_run tr =
         stage_reload_run example_object "base" ++
         stage_reload_run example_object "test").
Proof.
  split; [apply fake_run_calls_return|]. split; [discriminate|].
  destruct (run_stages_then_reloads example_impl (state_of example_object)
              (fake_run_calls_return _ _) ltac:(discriminate))
    as (result & st' & tr & E & _ & _ & _ & Hs & _).
  exists result, st', tr. split; [exact E | exact Hs].
Defined.

Lemma build_one_or_two_builds_witness :
  build_calls_return Fake.nothing /\ true && false = false /\
  exists (st' : State unit) (tr : list Event),
    build Fake.nothing true false (state_of example_object) = (inr tt, st') /\
    log st' = tr /\
    calls_of is_common_build tr = [METHOD_SystemTestsCommon_build true false].
Proof.
  split; [apply nothing_build_calls_return|]. split; [reflexivity|].
  destruct (build_one_or_two_builds Fake.nothing true false
              (state_of example_object) nothing_build_calls_return eq_refl)
    as (_ & st' & tr & E & Hl & Hb).
  exists st', tr. split_and!; [exact E | exact Hl | exact Hb].
Defined.

Lemma create_pe_files_idempotent_witness :
  build_calls_return Fake.nothing /\
  exists (st1 : State unit) (tr : list Event),
    _create_pe_files Fake.nothing (state_of example_object) = (inr tt, st1) /\
    _create_pe_files Fake.nothing st1 = (inr tt, st1) /\
    length (calls_of is_adjust_one tr) <= 1 /\
    length (calls_of is_adjust_two tr) <= 1.
Proof.
  split; [apply nothing_build_calls_return|].
  destruct (create_pe_files_idempotent Fake.nothing (state_of example_object)
              nothing_build_calls_return)
    as ((st1 & tr & E & _ & E' & H1 & H2 & _) & _).
  exists st1, tr. split_and!; assumption.
Defined.

Lemma build_calls_pre_build_once_witness :
  build_calls_return Fake.nothing /\
  exists (st1 st' : State unit) (before after : list Event),
    build_prelude Fake.nothing (state_of example_object) = (inr tt, st1) /\
    log st1 = before /\
    build Fake.nothing false false (state_of example_object) = (inr tt, st') /\
    log st' = before ++ [(METHOD_pre_build, Returned_None)] ++ after /\
    calls_of is_pre_build (before ++ after) = [].
Proof.
  split; [apply nothing_build_calls_return|].
  destruct (build_calls_pre_build_once Fake.nothing false false
              (state_of example_object) nothing_build_calls_return)
    as (st1 & st' & before & after & E1 & Hl1 & E & Hl & Hp & _).
  exists st1, st', before, after. split_and!; assumption.
Defined.

Lemma init_strips_run_two_suffix_witness :
  (exists msg, __init__ false true true "base  " "" "" =
                 inl (ConfigurationError msg)) /\
  _run_two_suffix example_object = "test" /\
  exists (result : bool) (st' : State unit) (tr : list Event),
    run example_impl (state_of example_object) = (inr result, st') /\
    (forall c out x, (c, out) ∈ tr -> x ∈ call_suffixes c ->
                     x = "base" \/ x = "test").
Proof.
  split.
  - exact (proj1 (init_strips_run_two_suffix example_impl false true true
                    "base  " "" "") (or_introl eq_refl)).
  - destruct (proj2 (init_strips_run_two_suffix example_impl false true true
                       "test " "" "") example_object eq_refl)
      as (E2 & _ & Hrun).
    split; [exact E2|].
    destruct (Hrun (state_of example_object) (fake_run_calls_return _ _) eq_refl)
      as (result & st' & tr & E & _ & Hs & _).
    exists result, st', tr. split; [exact E | exact Hs].
Defined.

(** * Further properties *)

(** ** What a method does at every step *)

(** A computation keeps a relation between the state it starts in and the
    state it ends in, whether it returns or raises. *)
Definition keeps {Case A : Type} (R : State Case -> State Case -> Prop)
    (m : M Case A) : Prop :=
  forall st, R st (snd (m st)).

(** An event that is no raise. *)
Definition returned (ev : Event) : Prop :=
  match snd ev with Raised _ => False | _ => True end.

(** The log tells how the computation ended: the events it adds are no
    raises if it returns, and if it raises, they are no raises but the last,
    which is the raise of the exception that comes out. *)
Definition logs_the_raise {Case A : Type} (m : M Case A) : Prop :=
  forall st, exists tr,
    Forall returned tr /\
    match fst (m st) with
    | inl e => exists c, log (snd (m st)) = log st ++ tr ++ [(c, Raised e)]
    | inr _ => log (snd (m st)) = log st ++ tr
    end.

Section Keeps.
Context {Case : Type}.
Implicit Types (R : State Case -> State Case -> Prop).

Lemma keeps_ret {A} R `{!Reflexive R} (a : A) : keeps R (ret a).
Proof. intros st. simpl. reflexivity. Qed.

Lemma keeps_bind {A B} R `{!Transitive R} (m : M Case A) (k : A -> M Case B) :
  keeps R m -> (forall a, keeps R (k a)) -> keeps R (bind m k).
Proof.
  intros Hm Hk st. unfold bind. specialize (Hm st).
  destruct (m st) as [[e|a] st1]; simpl in *; [exact Hm|].
  etrans; [exact Hm | apply Hk].
Qed.

Lemma keeps_if {A} R (b : bool) (m1 m2 : M Case A) :
  keeps R m1 -> keeps R m2 -> keeps R (if b then m1 else m2).
Proof. by destruct b. Qed.

Lemma logs_the_raise_ret {A} (a : A) : logs_the_raise (@ret Case A a).
Proof. intros st. exists []. simpl. by rewrite app_nil_r. Qed.

Lemma logs_the_raise_bind {A B} (m : M Case A) (k : A -> M Case B) :
  logs_the_raise m -> (forall a, logs_the_raise (k a)) ->
  logs_the_raise (bind m k).
Proof.
  intros Hm Hk st. unfold bind. destruct (Hm st) as (tr1 & F1 & E1).
  destruct (m st) as [[e|a] st1]; simpl in *; [by exists tr1|].
  destruct (Hk a st1) as (tr2 & F2 & E2).
  exists (tr1 ++ tr2). split; [by apply Forall_app|].
  destruct (fst (k a st1)).
  - destruct E2 as [c E2]. exists c. by rewrite E2, E1, <- !app_assoc.
  - by rewrite E2, E1, <- !app_assoc.
Qed.

Lemma logs_the_raise_if {A} (b : bool) (m1 m2 : M Case A) :
  logs_the_raise m1 -> logs_the_raise m2 ->
  logs_the_raise (if b then m1 else m2).
Proof. by destruct b. Qed.

Lemma logs_the_raise_silent {A} (m : M Case A) :
  (forall st, exists a st', m st = (inr a, st') /\ log st' = log st) ->
  logs_the_raise m.
Proof.
  intros Hm st. destruct (Hm st) as (a & st' & -> & E). exists []. simpl.
  by rewrite app_nil_r.
Qed.

Lemma logs_the_raise_attr {A} (f : SystemTestsCompareTwo -> A) :
  logs_the_raise (@attr Case A f).
Proof. apply logs_the_raise_silent. intros st. by eexists _, _. Qed.

Lemma logs_the_raise_call (c : Call) (f : Case -> Exn + Case) :
  logs_the_raise (call c f).
Proof.
  intros st. unfold call. destruct (f (case st)); simpl.
  - exists []. split; [done|]. by exists c.
  - exists [(c, Returned_None)]. split; [|done]. by apply Forall_singleton.
Qed.

Lemma logs_the_raise_call_bool (c : Call) (f : Case -> Exn + (bool * Case)) :
  logs_the_raise (call_bool c f).
Proof.
  intros st. unfold call_bool. destruct (f (case st)) as [e|[b c']]; simpl.
  - exists []. split; [done|]. by exists c.
  - exists [(c, Returned b)]. split; [|done]. by apply Forall_singleton.
Qed.

Lemma keeps_needs_two_builds R `{!Reflexive R} (a b : bool) :
  keeps R (@_needs_two_builds Case a b).
Proof. intros st. rewrite needs_two_builds_returns. simpl. reflexivity. Qed.

Lemma logs_the_raise_needs_two_builds (a b : bool) :
  logs_the_raise (@_needs_two_builds Case a b).
Proof.
  apply logs_the_raise_silent. intros st. eexists _, _.
  split; [apply needs_two_builds_returns | done].
Qed.

Lemma logs_the_raise_exists (xml_file suffix : string) :
  logs_the_raise (@saved_xml_file_exists Case xml_file suffix).
Proof. apply logs_the_raise_silent. intros st. by eexists _, _. Qed.

Lemma logs_the_raise_save (xml_file suffix : string) :
  logs_the_raise (@save_xml_file Case xml_file suffix).
Proof.
  intros st. eexists [_]. split; [|reflexivity]. by apply Forall_singleton.
Qed.

Lemma logs_the_raise_restore (H : Impl.t Case) (xml_file suffix : string) :
  logs_the_raise (restore_or_save_xml_file H xml_file suffix).
Proof.
  intros st. unfold restore_or_save_xml_file.
  case_bool_decide; (eexists [_]; split; [|reflexivity]);
    by apply Forall_singleton.
Qed.

Lemma logs_the_raise_set_status :
  (forall v, logs_the_raise (@set_status_run1 Case v)) /\
  (forall v, logs_the_raise (@set_status_run2 Case v)) /\
  (forall v, logs_the_raise (@set_status_compare Case v)).
Proof.
  split_and!; intros v; apply logs_the_raise_silent; intros st;
    by eexists _, _.
Qed.

End Keeps.

Ltac unfold_methods :=
  unfold run, build, _do_two_builds, _create_pe_files,
    _pre_build_restore_or_save_xml_files, different_pes_or_two_executables,
    _has_two_executables, _run_common_setup, _run_one_setup, _run_two_setup,
    _pre_build, _adjust_pes_for_run_one, _adjust_pes_for_run_two,
    _build_one_setup, _build_two_setup, _run, _component_compare_test,
    _stage_saved_pes_file, _stage_saved_build_files, _load_staged_xml_files,
    _save_build_files, SystemTestsCommon_build, case_read_xml, case_flush,
    logger_info.

Ltac logs_the_raise_steps :=
  repeat first
    [ apply logs_the_raise_needs_two_builds
    | apply logs_the_raise_bind; [| intros ?]
    | apply logs_the_raise_if
    | apply logs_the_raise_ret | apply logs_the_raise_attr
    | apply logs_the_raise_call | apply logs_the_raise_call_bool
    | apply logs_the_raise_exists | apply logs_the_raise_save
    | apply logs_the_raise_restore | apply logs_the_raise_set_status ].

Section Always.
Context {Case : Type} (H : Impl.t Case).

Lemma run_logs_the_raise : logs_the_raise (run H).
Proof. unfold_methods. logs_the_raise_steps. Qed.

Lemma build_logs_the_raise (sharedlib_only model_only : bool) :
  logs_the_raise (build H sharedlib_only model_only).
Proof. unfold_methods. logs_the_raise_steps. Qed.

End Always.

Section AlwaysTheorems.
Context {Case : Type} (H : Impl.t Case).

(** X3.  [run] and [build] raise nothing of their own and swallow nothing:
    if one of them raises, the exception is the one of the last call it
    made, and no call before that one raised; if it returns, no call it
    made raised. *)
Theorem run_and_build_raise_what_a_call_raised
    (sharedlib_only model_only : bool) (st : State Case) :
  (let '(result, st') := run H st in
   exists tr, Forall returned tr /\
     match result with
     | inl e => exists c, log st' = log st ++ tr ++ [(c, Raised e)]
     | inr _ => log st' = log st ++ tr
     end) /\
  (let '(result, st') := build H sharedlib_only model_only st in
   exists tr, Forall returned tr /\
     match result with
     | inl e => exists c, log st' = log st ++ tr ++ [(c, Raised e)]
     | inr _ => log st' = log st ++ tr
     end).
Proof.
  split.
  - pose proof (run_logs_the_raise H st) as Hr.
    by destruct (run H st) as [result st'].
  - pose proof (build_logs_the_raise H sharedlib_only model_only st) as Hb.
    by destruct (build H sharedlib_only model_only st) as [result st'].
Qed.

End AlwaysTheorems.

(** ** More of [run], with collaborators that return *)



Section MoreOfRun.
Context {Case : Type} (H : Impl.t Case).

(** X4.  [run] does not reset the statuses: a step that is not reached
    keeps the status it had before the call.  If the first run fails, the
    statuses of the second run and of the comparison are the old ones; if
    the second run fails, the status of the comparison is the old one. *)
Theorem run_keeps_status_of_steps_not_reached (st : State Case) :
  run_calls_return H ->
  _run_one_suffix (self st) <> _run_two_suffix (self st) ->
  let s1 := _run_one_suffix (self st) in
  let s2 := _run_two_suffix (self st) in
  exists (result : bool) (st' : State Case) (tr : list Event),
    run H st = (inr result, st') /\ log st' = log st ++ tr /\
    (failed (METHOD_run s1) tr ->
       result = false /\ _status_run1 (self st') = "FAIL" /\
       _status_run2 (self st') = _status_run2 (self st) /\
       _status_compare (self st') = _status_compare (self st)) /\
    (failed (METHOD_run s2) tr ->
       result = false /\ _status_run1 (self st') = "PASS" /\
       _status_run2 (self st') = "FAIL" /\
       _status_compare (self st') = _status_compare (self st)).
Proof.
  intros ok Hne s1 s2.
  destruct (run_trace H ok st) as (r & c' & E).
  eexists _, _, _. split; [exact E|]. split; [reflexivity|].
  subst s1 s2. rewrite failed_run_one, failed_run_two by exact Hne.
  split; intros ->; simpl; by split_and!.
Qed.


End MoreOfRun.

(** ** More of [build], with collaborators that return *)

(** The calls of a build pass. *)
Definition is_build_step (c : Call) : bool :=
  match c with
  | METHOD_stage_saved_pes_file _ | METHOD_load_staged_xml_files _
  | METHOD_build_one_setup | METHOD_build_two_setup
  | METHOD_SystemTestsCommon_build _ _ | METHOD_save_build_files _ => true
  | _ => false
  end.

Lemma add_saved_union (x : string * string) (sv : gset (string * string)) :
  add_saved x sv = {[ x ]} ∪ sv.
Proof. unfold add_saved. case_bool_decide; set_solver. Qed.

Lemma saved_after_restore_union (o : SystemTestsCompareTwo)
    (sv : gset (string * string)) :
  saved_after_restore o sv =
    sv ∪ (if _runs_have_different_pe_settings o
          then {[ ("env_mach_pes", ORIGINAL_SUFFIX) ]} else ∅)
       ∪ (if _two_builds_for_sharedlib o || _two_builds_for_model o
          then {[ ("env_build", ORIGINAL_SUFFIX) ]} else ∅).
Proof.
  unfold saved_after_restore, has_two_executables. rewrite !add_saved_union.
  destruct (_runs_have_different_pe_settings o), (_ || _);
    rewrite ?add_saved_union; set_solver.
Qed.

Lemma saved_after_build_union (o : SystemTestsCompareTwo)
    (sv : gset (string * string)) :
  saved_after_build o sv =
    sv ∪ (if _runs_have_different_pe_settings o
          then {[ ("env_mach_pes", ORIGINAL_SUFFIX);
                  ("env_mach_pes", _run_one_suffix o);
                  ("env_mach_pes", _run_two_suffix o) ]} else ∅)
       ∪ (if _two_builds_for_sharedlib o || _two_builds_for_model o
          then {[ ("env_build", ORIGINAL_SUFFIX) ]} else ∅).
Proof.
  unfold saved_after_build, saved_after_create.
  rewrite ?add_saved_union, saved_after_restore_union.
  destruct (_runs_have_different_pe_settings o), (_ || _);
    rewrite ?add_saved_union; set_solver.
Qed.

Lemma restore_events_calls (o : SystemTestsCompareTwo)
    (sv : gset (string * string)) :
  map fst (restore_events o sv) =
    (if _runs_have_different_pe_settings o
     then [FUNCTION_restore_or_save_xml_file "env_mach_pes" ORIGINAL_SUFFIX]
     else []) ++
    (if _two_builds_for_sharedlib o || _two_builds_for_model o
     then [FUNCTION_restore_or_save_xml_file "env_build" ORIGINAL_SUFFIX]
     else []) ++
    (if (_runs_have_different_pe_settings o
         && bool_decide (("env_mach_pes", ORIGINAL_SUFFIX) ∈ sv))
        || ((_two_builds_for_sharedlib o || _two_builds_for_model o)
            && bool_decide (("env_build", ORIGINAL_SUFFIX) ∈ sv))
     then [METHOD_case_read_xml] else []).
Proof.
  unfold restore_events, has_two_executables. cbv zeta.
  assert (bool_decide
            (("env_build", ORIGINAL_SUFFIX)
               ∈ (if _runs_have_different_pe_settings o
                  then add_saved ("env_mach_pes", ORIGINAL_SUFFIX) sv else sv))
          = bool_decide (("env_build", ORIGINAL_SUFFIX) ∈ sv)) as ->.
  { apply bool_decide_ext. destruct (_runs_have_different_pe_settings o);
      [|done]. rewrite add_saved_union. set_solver. }
  destruct (_runs_have_different_pe_settings o), (_ || _);
    simpl; repeat destruct (bool_decide _); reflexivity.
Qed.

Lemma build_events_steps (o : SystemTestsCompareTwo)
    (sv : gset (string * string)) (a b : bool) :
  calls_of is_build_step (build_events o sv a b) =
    calls_of is_build_step (after_pre_build o a b).
Proof.
  unfold build_events, before_pre_build. rewrite !calls_of_app.
  assert (calls_of is_build_step (restore_events o sv) = []) as ->.
  { unfold restore_events. cbv zeta.
    repeat destruct (bool_decide _);
      destruct (_runs_have_different_pe_settings o), (has_two_executables o);
      done. }
  assert (calls_of is_build_step
            (if _runs_have_different_pe_settings o
             then create_pe_events o (saved_after_restore o sv) else []) = [])
    as ->.
  { unfold create_pe_events.
    destruct (_runs_have_different_pe_settings o); [|done].
    repeat destruct (bool_decide _); done. }
  done.
Qed.

Lemma called_calls_of (kind : Call -> bool) (c : Call) (tr : list Event) :
  kind c = true -> (called c tr <-> c ∈ calls_of kind tr).
Proof.
  intros Hk. unfold called, calls_of.
  rewrite list_elem_of_In, filter_In, in_map_iff. split.
  - intros (o & Hin). split; [|done]. exists (c, o).
    by rewrite <- list_elem_of_In.
  - intros (([c' o] & Heq & Hin) & _). simpl in Heq. subst c'. exists o.
    by rewrite list_elem_of_In.
Qed.

(** The steps of the build passes, as [_do_two_builds] and the single build
    of [build] make them. *)
Definition build_steps (o : SystemTestsCompareTwo)
    (sharedlib_only model_only : bool) : list Call :=
  let stage suffix :=
    if _runs_have_different_pe_settings o
    then [METHOD_stage_saved_pes_file suffix; METHOD_load_staged_xml_files true]
    else [] in
  if two_builds_needed o sharedlib_only model_only
  then stage (_run_one_suffix o) ++
       [METHOD_build_one_setup;
        METHOD_SystemTestsCommon_build sharedlib_only model_only;
        METHOD_save_build_files (_run_one_suffix o)] ++
       stage (_run_two_suffix o) ++
       [METHOD_build_two_setup;
        METHOD_SystemTestsCommon_build sharedlib_only model_only;
        METHOD_save_build_files (_run_two_suffix o)]
  else stage (_run_one_suffix o) ++
       [METHOD_SystemTestsCommon_build sharedlib_only model_only].

Lemma after_pre_build_steps (o : SystemTestsCompareTwo) (a b : bool) :
  calls_of is_build_step (after_pre_build o a b) = build_steps o a b.
Proof.
  unfold after_pre_build, build_steps.
  destruct o as [[] tsl tm ? ? ? ? ? ? ?];
    destruct (two_builds_needed _ a b); reflexivity.
Qed.

Lemma two_builds_needed_full (o : SystemTestsCompareTwo) :
  two_builds_needed o false false =
    _two_builds_for_sharedlib o || _two_builds_for_model o.
Proof. reflexivity. Qed.

Section MoreOfBuild.
Context {Case : Type} (H : Impl.t Case).

(** X6.  The restore-or-save step at the start of [build] handles
    [env_mach_pes] only for a test with different PE settings and
    [env_build] only for a test with two executables; it leaves an
    'original' copy of each file it handles, never anything else, and calls
    [read_xml] once, after the files, exactly if one of them was restored.
    For a test with neither flag the step does nothing at all. *)
Theorem restore_or_save_step (st : State Case) :
  build_calls_return H ->
  let pe := _runs_have_different_pe_settings (self st) in
  let two := _two_builds_for_sharedlib (self st)
             || _two_builds_for_model (self st) in
  let pes_saved :=
    bool_decide (("env_mach_pes", ORIGINAL_SUFFIX) ∈ saved_xml_files st) in
  let build_saved :=
    bool_decide (("env_build", ORIGINAL_SUFFIX) ∈ saved_xml_files st) in
  exists (st' : State Case) (tr : list Event),
    _pre_build_restore_or_save_xml_files H st = (inr tt, st') /\
    log st' = log st ++ tr /\ self st' = self st /\
    map fst tr =
      (if pe
       then [FUNCTION_restore_or_save_xml_file "env_mach_pes" ORIGINAL_SUFFIX]
       else []) ++
      (if two
       then [FUNCTION_restore_or_save_xml_file "env_build" ORIGINAL_SUFFIX]
       else []) ++
      (if (pe && pes_saved) || (two && build_saved)
       then [METHOD_case_read_xml] else []) /\
    saved_xml_files st' =
      saved_xml_files st
        ∪ (if pe then {[ ("env_mach_pes", ORIGINAL_SUFFIX) ]} else ∅)
        ∪ (if two then {[ ("env_build", ORIGINAL_SUFFIX) ]} else ∅) /\
    (pe = false -> two = false -> st' = st).
Proof.
  intros ok pe two pes_saved build_saved.
  destruct (restore_trace H ok st) as (c' & E).
  eexists _, _. split; [exact E|]. split; [reflexivity|].
  split; [reflexivity|]. split; [apply restore_events_calls|].
  split; [apply saved_after_restore_union|].
  intros Hpe Htwo. subst pe two.
  destruct st as [[pe tsl tm s1 s2 d1 d2 r1 r2 rc] c sv lg]; simpl in *.
  subst pe. destruct tsl, tm; try discriminate.
  match type of E with ?l = _ =>
    assert (l = (inr tt, {| self := {| _runs_have_different_pe_settings := false;
                          _two_builds_for_sharedlib := false;
                          _two_builds_for_model := false;
                          _run_one_suffix := s1; _run_two_suffix := s2;
                          _run_one_description := d1;
                          _run_two_description := d2;
                          _status_run1 := r1; _status_run2 := r2;
                          _status_compare := rc |};
               case := c; saved_xml_files := sv; log := lg |})) as E'
      by reflexivity
  end.
  rewrite E' in E. injection E as <- _.
  unfold saved_after_restore, restore_events, has_two_executables; simpl.
  by rewrite app_nil_r.
Qed.

(** X8.  The build passes of [build], in order.  If two builds are needed:
    the first build's setup, the build and the saving of its files under the
    suffix of run one, then the same for run two; otherwise the one build.
    If the runs have different PE settings each pass begins by staging the
    PE file of its run and loading it, the single build using that of run
    one. *)
Theorem build_passes_in_order (sharedlib_only model_only : bool)
    (st : State Case) :
  build_calls_return H ->
  let s1 := _run_one_suffix (self st) in
  let s2 := _run_two_suffix (self st) in
  let stage suffix :=
    if _runs_have_different_pe_settings (self st)
    then [METHOD_stage_saved_pes_file suffix; METHOD_load_staged_xml_files true]
    else [] in
  exists (st' : State Case) (tr : list Event) (two_builds : bool),
    build H sharedlib_only model_only st = (inr tt, st') /\
    log st' = log st ++ tr /\
    _needs_two_builds sharedlib_only model_only st = (inr two_builds, st) /\
    calls_of is_build_step tr =
      if two_builds
      then stage s1 ++
           [METHOD_build_one_setup;
            METHOD_SystemTestsCommon_build sharedlib_only model_only;
            METHOD_save_build_files s1] ++
           stage s2 ++
           [METHOD_build_two_setup;
            METHOD_SystemTestsCommon_build sharedlib_only model_only;
            METHOD_save_build_files s2]
      else stage s1 ++
           [METHOD_SystemTestsCommon_build sharedlib_only model_only].
Proof.
  intros ok s1 s2 stage.
  destruct (build_trace H ok sharedlib_only model_only st) as (c1 & E1).
  eexists _, _, _. split; [exact E1|]. split; [reflexivity|].
  split; [apply needs_two_builds_returns|].
  rewrite build_events_steps, after_pre_build_steps. reflexivity.
Qed.

(** X9.  What [run] stages, the builds before it have saved.  After a full
    build, or a build of the shared libraries followed by one of the model,
    every PE file that [run] stages is among the saved files, and every call
    of [_stage_saved_build_files] is for a suffix under which a build saved
    its files. *)
Theorem run_stages_what_build_saved (st : State Case) :
  build_calls_return H -> run_calls_return H ->
  (exists (st1 st2 : State Case) (built ran : list Event) (result : bool),
     build H false false st = (inr tt, st1) /\ log st1 = log st ++ built /\
     run H st1 = (inr result, st2) /\ log st2 = log st1 ++ ran /\
     (forall s, called (METHOD_stage_saved_pes_file s) ran ->
                ("env_mach_pes", s) ∈ saved_xml_files st1) /\
     (forall s, called (METHOD_stage_saved_build_files s) ran ->
                called (METHOD_save_build_files s) built)) /\
  (exists (st1 st2 st3 : State Case) (built1 built2 ran : list Event)
          (result : bool),
     build H true false st = (inr tt, st1) /\ log st1 = log st ++ built1 /\
     build H false true st1 = (inr tt, st2) /\ log st2 = log st1 ++ built2 /\
     run H st2 = (inr result, st3) /\ log st3 = log st2 ++ ran /\
     (forall s, called (METHOD_stage_saved_pes_file s) ran ->
                ("env_mach_pes", s) ∈ saved_xml_files st2) /\
     (forall s, called (METHOD_stage_saved_build_files s) ran ->
                called (METHOD_save_build_files s) (built1 ++ built2))).
Proof.
  intros okb okr. split.
  - destruct (build_trace H okb false false st) as (c1 & E1).
    match type of E1 with _ = (_, ?s) =>
      destruct (run_trace H okr s) as (r & c2 & E2) end.
    eexists _, _, _, _, _. split; [exact E1|]. split; [reflexivity|].
    split; [exact E2|]. split; [reflexivity|]. simpl. split; intros s.
    + rewrite (called_calls_of is_stage_pes) by done.
      rewrite run_events_stage_pes, saved_after_build_union.
      destruct (_runs_have_different_pe_settings (self st));
        [|by intros ?%elem_of_nil].
      destruct (second_phase_started r); set_solver.
    + rewrite (called_calls_of is_stage_build) by done.
      rewrite (called_calls_of is_build_step) by done.
      rewrite run_events_stage_build, build_events_steps,
        after_pre_build_steps.
      unfold build_steps. rewrite two_builds_needed_full.
      destruct (_ || _); [|by intros ?%elem_of_nil].
      destruct (second_phase_started r),
        (_runs_have_different_pe_settings (self st)); set_solver.
  - destruct (build_trace H okb true false st) as (c1 & E1).
    match type of E1 with _ = (_, ?s) =>
      destruct (build_trace H okb false true s) as (c2 & E2) end.
    match type of E2 with _ = (_, ?s) =>
      destruct (run_trace H okr s) as (r & c3 & E3) end.
    eexists _, _, _, _, _, _, _. split; [exact E1|]. split; [reflexivity|].
    split; [exact E2|]. split; [reflexivity|].
    split; [exact E3|]. split; [reflexivity|]. simpl. split; intros s.
    + rewrite (called_calls_of is_stage_pes) by done.
      rewrite run_events_stage_pes, !saved_after_build_union.
      destruct (_runs_have_different_pe_settings (self st));
        [|by intros ?%elem_of_nil].
      destruct (second_phase_started r); set_solver.
    + rewrite (called_calls_of is_stage_build) by done.
      rewrite (called_calls_of is_build_step) by done.
      rewrite run_events_stage_build, calls_of_app, !build_events_steps,
        !after_pre_build_steps.
      unfold build_steps, two_builds_needed. simpl.
      destruct (_two_builds_for_sharedlib (self st)),
        (_two_builds_for_model (self st)); simpl;
        try (by intros ?%elem_of_nil);
        destruct (second_phase_started r),
          (_runs_have_different_pe_settings (self st)); set_solver.
Qed.

End MoreOfBuild.

(** ** A call that raises *)

(** [tr] is the trace [full] up to one of its calls, which raises [e]
    instead of returning. *)
Fixpoint cut_at (e : Exn) (full tr : list Event) : Prop :=
  match full, tr with
  | (c, o) :: full', ev :: tr' =>
      match tr' with
      | [] => ev = (c, Raised e)
      | _ :: _ => ev = (c, o) /\ cut_at e full' tr'
      end
  | _, _ => False
  end.

Lemma cut_at_spec (e : Exn) (full tr : list Event) :
  cut_at e full tr ->
  exists (before : list Event) (c : Call) (o : Outcome) (rest : list Event),
    full = before ++ (c, o) :: rest /\ tr = before ++ [(c, Raised e)].
Proof.
  revert tr. induction full as [|[c o] full IH]; intros [|ev tr]; simpl;
    try done.
  destruct tr as [|ev' tr].
  - intros ->. by exists [], c, o, full.
  - intros [-> Hc]. destruct (IH _ Hc) as (before & c' & o' & rest & -> & ->).
    by exists ((c, o) :: before), c', o', rest.
Qed.

Lemma cut_at_app_l (e : Exn) (full more tr : list Event) :
  cut_at e full tr -> cut_at e (full ++ more) tr.
Proof.
  revert tr. induction full as [|[c o] full IH]; intros [|ev tr]; simpl;
    try done.
  destruct tr as [|ev' tr]; [done|]. intros [-> Hc]. split; [done|].
  by apply IH.
Qed.

Lemma cut_at_app_r (e : Exn) (done_ full tr : list Event) :
  cut_at e full tr -> cut_at e (done_ ++ full) (done_ ++ tr).
Proof.
  intros Hc. induction done_ as [|[c o] l IH]; simpl; [done|].
  destruct (l ++ tr) eqn:E; [|done].
  destruct l, tr; try discriminate. by destruct full as [|[]].
Qed.

(** What a step of [build] does, for every implementation: it leaves
    [self] alone; if it returns, it returns [a], has made the calls of
    [full] and leaves the saved files [sv']; if it raises, it has made the
    calls of [full] up to the one that raised. *)
Definition build_step {Case A : Type} (full : list Event)
    (sv' : gset (string * string)) (a : A) (st : State Case)
    (r : (Exn + A) * State Case) : Prop :=
  self (snd r) = self st /\
  match fst r with
  | inr a' =>
      a' = a /\ saved_xml_files (snd r) = sv' /\ log (snd r) = log st ++ full
  | inl e => exists tr, cut_at e full tr /\ log (snd r) = log st ++ tr
  end.

Section BuildSteps.
Context {Case : Type} (H : Impl.t Case).

Lemma build_step_bind {A B : Type} (m : M Case A) (k : A -> M Case B)
    (full1 full2 : list Event) (sv1 sv2 : gset (string * string))
    (a : A) (b : B) (st : State Case) :
  build_step full1 sv1 a st (m st) ->
  (forall st1, self st1 = self st -> saved_xml_files st1 = sv1 ->
               build_step full2 sv2 b st1 (k a st1)) ->
  build_step (full1 ++ full2) sv2 b st (bind m k st).
Proof.
  unfold build_step, bind. destruct (m st) as [[e|a'] st1]; simpl.
  - intros (Hs & tr & Hc & Hl) _. split; [done|]. exists tr.
    split; [by apply cut_at_app_l | done].
  - intros (Hs & -> & Hsv & Hl) Hk. specialize (Hk st1 Hs Hsv).
    destruct (k a st1) as [[e|b'] st2]; simpl in *.
    + destruct Hk as (Hs2 & tr & Hc & Hl2). split; [congruence|].
      exists (full1 ++ tr). split; [by apply cut_at_app_r|].
      by rewrite Hl2, Hl, <- app_assoc.
    + destruct Hk as (Hs2 & -> & Hsv2 & Hl2). split; [congruence|].
      split_and!; [done | done |]. by rewrite Hl2, Hl, <- app_assoc.
Qed.

Lemma build_step_call (c : Call) (f : Case -> Exn + Case) (st : State Case) :
  build_step [(c, Returned_None)] (saved_xml_files st) tt st (call c f st).
Proof.
  unfold build_step, call. destruct (f (case st)) as [e|c']; simpl.
  - split; [done|]. by exists [(c, Raised e)].
  - done.
Qed.

Lemma build_step_restore (st : State Case) :
  build_step (restore_events (self st) (saved_xml_files st))
    (saved_after_restore (self st) (saved_xml_files st)) tt st
    (_pre_build_restore_or_save_xml_files H st).
Proof.
  destruct st as [[pe tsl tm s1 s2 d1 d2 r1 r2 rc] c sv lg].
  unfold build_step, _pre_build_restore_or_save_xml_files,
    _has_two_executables, restore_or_save_xml_file, case_read_xml, bind, ret,
    call, logged, saved_after_restore, restore_events, has_two_executables,
    add_saved.
  destruct (decide (("env_mach_pes", ORIGINAL_SUFFIX) ∈ sv)),
    (decide (("env_build", ORIGINAL_SUFFIX) ∈ sv));
    destruct pe, tsl, tm; simpl;
    repeat (match goal with
            | |- context [bool_decide (?x ∈ ?s)] =>
                first [ rewrite (bool_decide_true (x ∈ s)) by set_solver
                      | rewrite (bool_decide_false (x ∈ s)) by set_solver ]
            end; simpl);
    repeat match goal with
           | |- context [Impl.read_xml H ?c] =>
               destruct (Impl.read_xml H c) as [?|?]; simpl
           end;
    rewrite <- ?List.app_assoc, ?app_nil_r; simpl;
    (split; [reflexivity|]);
    first [ by (split_and!; try reflexivity)
          | by (eexists; split; [|reflexivity]; simpl) ].
Qed.

Ltac any_call :=
  match goal with
  | |- context [match ?x with inl _ => _ | inr _ => _ end] =>
      lazymatch x with
      | context [match _ with inl _ => _ | inr _ => _ end] => fail
      | _ => destruct x as [?|?]; simpl
      end
  end.

Ltac returned_or_cut :=
  rewrite <- ?List.app_assoc, ?app_nil_r; simpl;
  (split; [reflexivity|]);
  first [ by split_and!
        | eexists; split; [|reflexivity]; simpl; by repeat split ].

Lemma build_step_ret {A : Type} (a : A) (st : State Case) :
  build_step [] (saved_xml_files st) a st (ret a st).
Proof. unfold build_step, ret. simpl. by rewrite app_nil_r. Qed.

Lemma build_step_create (st : State Case) :
  build_step (create_pe_events (self st) (saved_xml_files st))
    (saved_after_create (self st) (saved_xml_files st)) tt st
    (_create_pe_files H st).
Proof.
  destruct st as [[pe tsl tm s1 s2 d1 d2 r1 r2 rc] c sv lg].
  unfold build_step, _create_pe_files, saved_xml_file_exists, save_xml_file,
    _adjust_pes_for_run_one, _adjust_pes_for_run_two, case_flush,
    bind, ret, call, logged, saved_after_create, create_pe_events, add_saved.
  simpl.
  destruct (decide (("env_mach_pes", s1) ∈ sv));
    [ destruct (decide (("env_mach_pes", s2) ∈ sv))
    | destruct (decide (("env_mach_pes", s2) ∈ {[("env_mach_pes", s1)]} ∪ sv)) ];
    repeat first
      [ match goal with
        | |- context [bool_decide (?x ∈ ?s)] =>
            first [ rewrite (bool_decide_true (x ∈ s)) by set_solver
                  | rewrite (bool_decide_false (x ∈ s)) by set_solver ]
        end; simpl
      | any_call ];
    returned_or_cut.
Qed.

Lemma build_step_two_builds (sharedlib_only model_only : bool)
    (st : State Case) :
  build_step (two_builds_events (self st) sharedlib_only model_only)
    (saved_xml_files st) tt st
    (_do_two_builds H sharedlib_only model_only st).
Proof.
  destruct st as [[pe tsl tm s1 s2 d1 d2 r1 r2 rc] c sv lg].
  unfold build_step, _do_two_builds, _stage_saved_pes_file,
    _load_staged_xml_files, _build_one_setup, _build_two_setup,
    SystemTestsCommon_build, _save_build_files, bind, ret, call, logged,
    two_builds_events, stage_pes_events.
  destruct pe; simpl; repeat any_call; returned_or_cut.
Qed.

Lemma build_step_one_build (sharedlib_only model_only : bool)
    (st : State Case) :
  build_step (one_build_events (self st) sharedlib_only model_only)
    (saved_xml_files st) tt st
    ((pe <- attr _runs_have_different_pe_settings;;
      (if pe then
         s1 <- attr _run_one_suffix;;
         _stage_saved_pes_file H s1;;
         _load_staged_xml_files H true
       else ret tt);;
      SystemTestsCommon_build H sharedlib_only model_only)%monad st).
Proof.
  destruct st as [[pe tsl tm s1 s2 d1 d2 r1 r2 rc] c sv lg].
  unfold build_step, _stage_saved_pes_file, _load_staged_xml_files,
    SystemTestsCommon_build, bind, ret, call, logged, one_build_events,
    stage_pes_events.
  destruct pe; simpl; repeat any_call; returned_or_cut.
Qed.

Lemma bind_attr {A B : Type} (f : SystemTestsCompareTwo -> A)
    (k : A -> M Case B) (st : State Case) :
  bind (attr f) k st = k (f (self st)) st.
Proof. reflexivity. Qed.

(** [build], whatever the implementations do. *)
Lemma build_step_build (sharedlib_only model_only : bool) (st : State Case) :
  build_step
    (build_events (self st) (saved_xml_files st) sharedlib_only model_only)
    (saved_after_build (self st) (saved_xml_files st)) tt st
    (build H sharedlib_only model_only st).
Proof.
  unfold build, build_events, before_pre_build, saved_after_build.
  rewrite <- app_assoc.
  eapply build_step_bind; [apply build_step_restore|].
  intros st1 Hs1 Hsv1. rewrite bind_attr, Hs1.
  eapply build_step_bind with
    (a := tt)
    (sv1 := if _runs_have_different_pe_settings (self st)
            then saved_after_create (self st)
                   (saved_after_restore (self st) (saved_xml_files st))
            else saved_after_restore (self st) (saved_xml_files st)).
  { destruct (_runs_have_different_pe_settings (self st)).
    - rewrite <- Hsv1, <- Hs1. apply build_step_create.
    - rewrite <- Hsv1. apply build_step_ret. }
  intros st2 Hs2 Hsv2.
  eapply build_step_bind; [apply build_step_call|].
  intros st3 Hs3 Hsv3. unfold bind at 1.
  rewrite needs_two_builds_returns. simpl.
  unfold after_pre_build.
  assert (self st3 = self st) as Hs by congruence. rewrite Hs.
  rewrite <- Hsv2, <- Hsv3.
  rewrite <- Hs.
  destruct (two_builds_needed (self st3) sharedlib_only model_only).
  - apply build_step_two_builds.
  - apply build_step_one_build.
Qed.

End BuildSteps.

(** The runs of a trace that passed. *)
Definition passed_runs (tr : list Event) : nat :=
  length (List.filter
            (fun ev => match ev with
                       | (METHOD_run _, Returned true) => true
                       | _ => false
                       end) tr).

Lemma passed_runs_app (l1 l2 : list Event) :
  passed_runs (l1 ++ l2) = passed_runs l1 + passed_runs l2.
Proof. unfold passed_runs. by rewrite List.filter_app, length_app. Qed.

(** The statuses after [n] runs that passed, the comparison not made. *)
Definition after_passed_runs (n : nat) (o : SystemTestsCompareTwo)
  : SystemTestsCompareTwo :=
  match n with
  | 0 => o
  | 1 => with_status_run1 "PASS" o
  | _ => with_status_run2 "PASS" (with_status_run1 "PASS" o)
  end.

Section RunRaises.
Context {Case : Type} (H : Impl.t Case).

Ltac any_run_call :=
  match goal with
  | |- context [match ?x with inl _ => _ | inr _ => _ end] =>
      lazymatch x with
      | context [match _ with inl _ => _ | inr _ => _ end] => fail
      | _ => destruct x as [?|?]; simpl
      end
  | p : (bool * Case)%type |- _ => destruct p as [[] ?]; simpl
  end.

Lemma run_cut (st : State Case) :
  match run H st with
  | (inr _, _) => True
  | (inl e, st') =>
      exists (r : RunResult) (tr : list Event),
        cut_at e (run_events (self st) r) tr /\
        log st' = log st ++ tr /\
        saved_xml_files st' = saved_xml_files st /\
        self st' = after_passed_runs (passed_runs tr) (self st)
  end.
Proof.
  destruct st as [[pe tsl tm s1 s2 d1 d2 r1 r2 rc] c sv lg].
  unfold run, _run_common_setup, _run_one_setup, _run_two_setup,
    _stage_saved_pes_file, _stage_saved_build_files, _load_staged_xml_files,
    _run, _component_compare_test, logger_info,
    different_pes_or_two_executables, _has_two_executables,
    bind, ret, call, call_bool, logged.
  destruct pe, tsl, tm; simpl; repeat any_run_call; try exact I;
    unfold set_self; simpl; rewrite <- ?List.app_assoc; simpl;
    solve [ exists Run1Fails; eexists; split; [|split; [reflexivity|]];
            simpl; by repeat split
          | exists Run2Fails; eexists; split; [|split; [reflexivity|]];
            simpl; by repeat split
          | exists AllPass; eexists; split; [|split; [reflexivity|]];
            simpl; by repeat split ].
Qed.

End RunRaises.

Section Raises.
Context {Case : Type}.

(** X10.  For hooks and collaborators that act on the case only, as
    [Impl.t] has them (they assign no attribute of the object and save or
    remove no XML file themselves): whether one of them raises does not
    change which calls [build] makes before.  Compared with a build, from
    the same state, whose calls all return: a build that returns has made
    the same calls with the same outcomes and leaves the same saved files; a
    build that raises has made the same calls up to one, which raised the
    exception. *)
Theorem build_stops_at_the_call_that_raises (H H' : Impl.t Case)
    (sharedlib_only model_only : bool) (st : State Case) :
  build_calls_return H' ->
  exists (finished : State Case) (full : list Event),
    build H' sharedlib_only model_only st = (inr tt, finished) /\
    log finished = log st ++ full /\
    match build H sharedlib_only model_only st with
    | (inr _, st') =>
        log st' = log finished /\
        saved_xml_files st' = saved_xml_files finished
    | (inl e, st') =>
        exists (before : list Event) (c : Call) (o : Outcome)
               (rest : list Event),
          full = before ++ (c, o) :: rest /\
          log st' = log st ++ before ++ [(c, Raised e)]
    end.
Proof.
  intros ok.
  destruct (build_trace H' ok sharedlib_only model_only st) as (c' & E).
  eexists _, _. split; [exact E|]. split; [reflexivity|]. simpl.
  pose proof (build_step_build H sharedlib_only model_only st) as [_ Hb].
  destruct (build H sharedlib_only model_only st) as [[e|[]] st']; simpl in *.
  - destruct Hb as (tr & Hc & ->).
    destruct (cut_at_spec _ _ _ Hc) as (before & c & o & rest & -> & ->).
    by exists before, c, o, rest.
  - by destruct Hb as (_ & -> & ->).
Qed.

(** X11.  A [run] that raises sets no status to FAIL: the status of each
    run that passed before the raise is PASS, the other statuses are as they
    were.  The calls made before the one that raised are the beginning of a
    run that returns. *)
Theorem run_that_raises_keeps_statuses (H : Impl.t Case) (st st' : State Case)
    (e : Exn) :
  run H st = (inl e, st') ->
  exists (before : list Event) (c : Call),
    log st' = log st ++ before ++ [(c, Raised e)] /\
    (exists (r : RunResult) (o : Outcome) (rest : list Event),
       run_events (self st) r = before ++ (c, o) :: rest) /\
    _status_run1 (self st') =
      (match passed_runs before with
       | 0 => _status_run1 (self st) | _ => "PASS" end) /\
    _status_run2 (self st') =
      (match passed_runs before with
       | 0 | 1 => _status_run2 (self st) | _ => "PASS" end) /\
    _status_compare (self st') = _status_compare (self st).
Proof.
  intros E. pose proof (run_cut H st) as Hr. rewrite E in Hr.
  destruct Hr as (r & tr & Hc & Hl & _ & Hs).
  destruct (cut_at_spec _ _ _ Hc) as (before & c & o & rest & Hfull & ->).
  exists before, c. split; [done|]. split; [by exists r, o, rest|].
  rewrite Hs, passed_runs_app.
  replace (passed_runs [(c, Raised e)]) with 0 by by destruct c.
  rewrite Nat.add_0_r.
  by destruct (passed_runs before) as [|[|n]].
Qed.

End Raises.

(** A test class that left out [_run_two_setup]. *)
Definition without_run_two_setup : Impl.t unit :=
  {| Impl._run_common_setup := inr; Impl._run_one_setup := inr;
     Impl._run_two_setup := Impl._run_two_setup (Impl.base_class Fake.nothing);
     Impl._pre_build := inr;
     Impl._adjust_pes_for_run_one := inr; Impl._adjust_pes_for_run_two := inr;
     Impl._build_one_setup := inr; Impl._build_two_setup := inr;
     Impl._run := fun _ c => inr (true, c);
     Impl._component_compare_test := fun _ _ c => inr (true, c);
     Impl._stage_saved_pes_file := fun _ => inr;
     Impl._stage_saved_build_files := fun _ => inr;
     Impl._load_staged_xml_files := fun _ => inr;
     Impl._save_build_files := fun _ => inr;
     Impl.SystemTestsCommon_build := fun _ _ => inr;
     Impl.read_xml := inr; Impl.flush := inr;
     Impl.restore_xml_file := fun _ _ c => c |}.

Lemma build_stops_at_the_call_that_raises_witness :
  build_calls_return Fake.nothing /\
  exists (finished : State unit) (full : list Event),
    build Fake.nothing false false (state_of example_object) =
      (inr tt, finished) /\
    log finished = log (state_of example_object) ++ full /\
    match build (Impl.base_class Fake.nothing) false false
            (state_of example_object) with
    | (inr _, st') =>
        log st' = log finished /\
        saved_xml_files st' = saved_xml_files finished
    | (inl e, st') =>
        exists (before : list Event) (c : Call) (o : Outcome)
               (rest : list Event),
          full = before ++ (c, o) :: rest /\
          log st' = log (state_of example_object) ++ before ++ [(c, Raised e)]
    end.
Proof.
  split; [apply nothing_build_calls_return|].
  apply (build_stops_at_the_call_that_raises (Impl.base_class Fake.nothing)
           Fake.nothing false false (state_of example_object)
           nothing_build_calls_return).
Defined.

Lemma run_that_raises_keeps_statuses_witness :
  let st := state_of example_object in
  let st' := snd (run without_run_two_setup st) in
  run without_run_two_setup st = (inl (NotImplementedError ""), st') /\
  exists (before : list Event) (c : Call),
    log st' = log st ++ before ++ [(c, Raised (NotImplementedError ""))] /\
    (exists (r : RunResult) (o : Outcome) (rest : list Event),
       run_events (self st) r = before ++ (c, o) :: rest) /\
    _status_run1 (self st') =
      (match passed_runs before with
       | 0 => _status_run1 (self st) | _ => "PASS" end) /\
    _status_run2 (self st') =
      (match passed_runs before with
       | 0 | 1 => _status_run2 (self st) | _ => "PASS" end) /\
    _status_compare (self st') = _status_compare (self st).
Proof.
  split; [reflexivity|].
  apply (run_that_raises_keeps_statuses without_run_two_setup
           (state_of example_object)
           (snd (run without_run_two_setup (state_of example_object)))
           (NotImplementedError "")).
  reflexivity.
Defined.

(** ** The hooks of the build *)

Definition is_build_hook (c : Call) : bool :=
  match c with
  | METHOD_adjust_pes_for_run_one | METHOD_adjust_pes_for_run_two
  | METHOD_build_one_setup | METHOD_build_two_setup => true
  | _ => false
  end.

(** The hooks that a build needs, in the order of their calls: the PE hook
    of each run whose PE file is not saved yet (the restore-or-save step has
    saved the original one by then, and the file of run one is saved before
    that of run two is looked for), and the two build hooks if two builds
    are needed. *)
Definition hooks_needed (o : SystemTestsCompareTwo)
    (sv : gset (string * string)) (sharedlib_only model_only : bool)
  : list Call :=
  let saved := sv ∪ {[ ("env_mach_pes", ORIGINAL_SUFFIX) ]} in
  (if _runs_have_different_pe_settings o then
     (if bool_decide (("env_mach_pes", _run_one_suffix o) ∈ saved)
      then [] else [METHOD_adjust_pes_for_run_one]) ++
     (if bool_decide (("env_mach_pes", _run_two_suffix o)
                        ∈ saved ∪ {[ ("env_mach_pes", _run_one_suffix o) ]})
      then [] else [METHOD_adjust_pes_for_run_two])
   else []) ++
  (if two_builds_needed o sharedlib_only model_only
   then [METHOD_build_one_setup; METHOD_build_two_setup] else []).

Lemma elem_of_union_other_file (x y : string * string)
    (sv : gset (string * string)) (other : bool) :
  fst x <> fst y -> x ∈ sv ∪ (if other then {[ y ]} else ∅) <-> x ∈ sv.
Proof.
  intros Hne. destruct other; [|set_solver].
  rewrite elem_of_union, elem_of_singleton. split; [|by left].
  intros [? | ->]; done.
Qed.

Lemma build_events_hooks (o : SystemTestsCompareTwo)
    (sv : gset (string * string)) (a b : bool) :
  calls_of is_build_hook (build_events o sv a b) = hooks_needed o sv a b.
Proof.
  unfold build_events, before_pre_build, hooks_needed. rewrite !calls_of_app.
  assert (calls_of is_build_hook (restore_events o sv) = []) as ->.
  { unfold restore_events. cbv zeta.
    repeat destruct (bool_decide _);
      destruct (_runs_have_different_pe_settings o), (has_two_executables o);
      done. }
  assert (calls_of is_build_hook (after_pre_build o a b) =
            if two_builds_needed o a b
            then [METHOD_build_one_setup; METHOD_build_two_setup] else [])
    as ->.
  { unfold after_pre_build, two_builds_events, one_build_events,
      stage_pes_events.
    destruct (two_builds_needed o a b),
      (_runs_have_different_pe_settings o); done. }
  simpl. f_equal.
  destruct (_runs_have_different_pe_settings o) eqn:Epe; [|done].
  unfold create_pe_events. rewrite calls_of_app.
  rewrite !add_saved_union, saved_after_restore_union, Epe.
  f_equal.
  - rewrite (bool_decide_ext _
      (("env_mach_pes", _run_one_suffix o)
         ∈ sv ∪ {[ ("env_mach_pes", ORIGINAL_SUFFIX) ]})).
    + by case_bool_decide.
    + by apply elem_of_union_other_file.
  - rewrite (bool_decide_ext _
      (("env_mach_pes", _run_two_suffix o)
         ∈ sv ∪ {[ ("env_mach_pes", ORIGINAL_SUFFIX) ]}
              ∪ {[ ("env_mach_pes", _run_one_suffix o) ]})).
    + by case_bool_decide.
    + rewrite (elem_of_union {[ _ ]}), (elem_of_union _ {[ _ ]}).
      rewrite elem_of_union_other_file by done. tauto.
Qed.

Lemma calls_of_cut_prefix (kind : Call -> bool) (e : Exn)
    (full tr : list Event) :
  cut_at e full tr -> calls_of kind tr `prefix_of` calls_of kind full.
Proof.
  intros Hc.
  destruct (cut_at_spec _ _ _ Hc) as (before & c & o & rest & -> & ->).
  rewrite !calls_of_app. apply prefix_app.
  change ((c, o) :: rest) with ([(c, o)] ++ rest). rewrite calls_of_app.
  by apply prefix_app_r.
Qed.

(** The events that a computation adds to the log are all of one kind. *)
Definition adds_only {Case : Type} (P : Event -> Prop)
    (st st' : State Case) : Prop :=
  exists tr, log st' = log st ++ tr /\ Forall P tr.

#[global] Instance adds_only_preorder {Case : Type} (P : Event -> Prop) :
  PreOrder (@adds_only Case P).
Proof.
  split.
  - intros st. exists []. by rewrite app_nil_r.
  - intros st1 st2 st3 (tr1 & E1 & F1) (tr2 & E2 & F2). exists (tr1 ++ tr2).
    split; [by rewrite E2, E1, <- app_assoc | by apply Forall_app].
Qed.

(** With the hooks of the class itself and collaborators that return: a
    call of a build hook raises [NotImplementedError], every other call
    returns. *)
Definition default_hook_event (ev : Event) : Prop :=
  if is_build_hook (fst ev)
  then exists msg, snd ev = Raised (NotImplementedError msg)
  else returned ev.

Section DefaultHooks.
Context {Case : Type} (inherited : Impl.t Case).
Hypothesis ok : build_calls_return inherited.

Lemma keeps_default_silent {A : Type} (m : M Case A) :
  (forall st, log (snd (m st)) = log st) ->
  keeps (adds_only default_hook_event) m.
Proof. intros Hm st. exists []. by rewrite app_nil_r. Qed.

Lemma keeps_default_call (c : Call) (f : Case -> Exn + Case) :
  (forall case0, match f case0 with
                 | inl e => default_hook_event (c, Raised e)
                 | inr _ => default_hook_event (c, Returned_None)
                 end) ->
  keeps (adds_only default_hook_event) (call c f).
Proof.
  intros Hf st. unfold call. specialize (Hf (case st)).
  destruct (f (case st)); simpl; eexists [_];
    (split; [reflexivity|]); by apply Forall_singleton.
Qed.

Lemma keeps_default_save (xml_file suffix : string) :
  keeps (adds_only default_hook_event) (@save_xml_file Case xml_file suffix).
Proof.
  intros st. eexists [_]. split; [reflexivity|]. by apply Forall_singleton.
Qed.

Lemma keeps_default_restore (H : Impl.t Case) (xml_file suffix : string) :
  keeps (adds_only default_hook_event)
    (restore_or_save_xml_file H xml_file suffix).
Proof.
  intros st. unfold restore_or_save_xml_file.
  case_bool_decide; (eexists [_]; split; [reflexivity|]);
    by apply Forall_singleton.
Qed.

Ltac inherited_call :=
  match goal with
  | |- context [Impl._stage_saved_pes_file inherited ?s ?c] =>
      destruct (ok_build_stage_saved_pes_file inherited ok s c) as [? ->]
  | |- context [Impl._load_staged_xml_files inherited ?b ?c] =>
      destruct (ok_build_load_staged_xml_files inherited ok b c) as [? ->]
  | |- context [Impl._save_build_files inherited ?s ?c] =>
      destruct (ok_save_build_files inherited ok s c) as [? ->]
  | |- context [Impl.SystemTestsCommon_build inherited ?a ?b ?c] =>
      destruct (ok_SystemTestsCommon_build inherited ok a b c) as [? ->]
  | |- context [Impl.read_xml inherited ?c] =>
      destruct (ok_read_xml inherited ok c) as [? ->]
  | |- context [Impl.flush inherited ?c] =>
      destruct (ok_flush inherited ok c) as [? ->]
  end.

Lemma build_of_default_hooks (sharedlib_only model_only : bool) :
  keeps (adds_only default_hook_event)
    (build (Impl.base_class inherited) sharedlib_only model_only).
Proof.
  unfold_methods.
  repeat first
    [ apply keeps_needs_two_builds; tc_solve
    | apply keeps_bind; [tc_solve | | intros ?]
    | apply keeps_if
    | apply keeps_ret; tc_solve
    | apply keeps_default_silent; reflexivity
    | apply keeps_default_save
    | apply keeps_default_restore
    | apply keeps_default_call; intros ?; simpl;
      try inherited_call; unfold default_hook_event; simpl; by eauto ].
Qed.

End DefaultHooks.

Lemma build_events_returned (o : SystemTestsCompareTwo)
    (sv : gset (string * string)) (a b : bool) :
  Forall returned (build_events o sv a b).
Proof.
  unfold build_events, before_pre_build. rewrite !Forall_app. split_and!.
  - unfold restore_events. cbv zeta.
    destruct (_runs_have_different_pe_settings o), (has_two_executables o);
      simpl; decide_all; repeat constructor.
  - destruct (_runs_have_different_pe_settings o); [|constructor].
    unfold create_pe_events. decide_all; repeat constructor.
  - repeat constructor.
  - unfold after_pre_build, two_builds_events, one_build_events,
      stage_pes_events.
    destruct (two_builds_needed o a b),
      (_runs_have_different_pe_settings o); repeat constructor.
Qed.

Lemma no_hook_returned (tr : list Event) :
  Forall default_hook_event tr -> Forall returned tr ->
  calls_of is_build_hook tr = [].
Proof.
  induction 1 as [|[c o] tr Hd _ IH]; [done|].
  intros [Hr Hrs]%Forall_cons. specialize (IH Hrs).
  unfold calls_of in *. simpl. unfold default_hook_event in Hd. simpl in Hd.
  destruct (is_build_hook c); [|done].
  destruct Hd as [msg ->]. done.
Qed.

Section Hooks.
Context {Case : Type}.

(** X12.  For hooks and collaborators that act on the case only, as
    [Impl.t] has them (they assign no attribute of the object and save or
    remove no XML file themselves), be it that they raise: the build hooks
    that [build] calls are the first of the hooks it needs, in their order;
    all of them, if it returns.  So a test whose runs have the same PE
    settings is not asked for a PE hook, nor a test with one build for a
    build hook, nor any test for the PE hook of a run whose PE file is
    saved. *)
Theorem build_calls_the_hooks_it_needs (H : Impl.t Case)
    (sharedlib_only model_only : bool) (st : State Case) :
  let st' := snd (build H sharedlib_only model_only st) in
  let needed :=
    hooks_needed (self st) (saved_xml_files st) sharedlib_only model_only in
  exists tr : list Event,
    log st' = log st ++ tr /\
    calls_of is_build_hook tr `prefix_of` needed /\
    (forall x, fst (build H sharedlib_only model_only st) = inr x ->
               calls_of is_build_hook tr = needed).
Proof.
  intros st' needed. subst st' needed.
  pose proof (build_step_build H sharedlib_only model_only st) as [_ Hb].
  rewrite <- build_events_hooks.
  destruct (build H sharedlib_only model_only st) as [[e|[]] st'];
    simpl in *.
  - destruct Hb as (tr & Hc & ->). exists tr. split; [done|].
    split; [by eapply calls_of_cut_prefix | done].
  - destruct Hb as (_ & _ & ->). eexists. by split_and!.
Qed.

(** X13.  With the hooks as the class itself defines them and collaborators
    that return, [build] returns if it needs no hook; otherwise it raises
    [NotImplementedError] at the first hook it needs, and no call before
    that one raised. *)
Theorem build_with_the_hooks_of_the_class (inherited : Impl.t Case)
    (sharedlib_only model_only : bool) (st : State Case) :
  build_calls_return inherited ->
  match hooks_needed (self st) (saved_xml_files st)
          sharedlib_only model_only with
  | [] =>
      exists st' : State Case,
        build (Impl.base_class inherited) sharedlib_only model_only st =
          (inr tt, st')
  | hook :: _ =>
      exists (msg : string) (st' : State Case) (before : list Event),
        build (Impl.base_class inherited) sharedlib_only model_only st =
          (inl (NotImplementedError msg), st') /\
        log st' =
          log st ++ before ++ [(hook, Raised (NotImplementedError msg))] /\
        Forall returned before
  end.
Proof.
  intros ok.
  pose proof (build_step_build (Impl.base_class inherited)
                sharedlib_only model_only st) as [_ Hb].
  destruct (build_of_default_hooks inherited ok sharedlib_only model_only st)
    as (tr & El & F).
  rewrite <- build_events_hooks.
  pose proof (build_events_returned (self st) (saved_xml_files st)
                sharedlib_only model_only) as Hret.
  destruct (build (Impl.base_class inherited) sharedlib_only model_only st)
    as [[e|[]] st']; simpl in *.
  - destruct Hb as (tr' & Hc & El'). rewrite El in El'.
    apply app_inv_head in El'. subst tr'.
    destruct (cut_at_spec _ _ _ Hc) as (before & c & o & rest & Hfull & ->).
    rewrite Hfull in *.
    apply Forall_app in F as [Fb Fc]. apply Forall_app in Hret as [Rb _].
    rewrite Forall_singleton in Fc. unfold default_hook_event in Fc.
    simpl in Fc. rewrite calls_of_app, (no_hook_returned before Fb Rb).
    unfold calls_of. simpl.
    destruct (is_build_hook c); [|by unfold returned in Fc].
    destruct Fc as [msg Fc].
    injection Fc as ->. by exists msg, st', before.
  - destruct Hb as (_ & _ & El'). rewrite El in El'.
    apply app_inv_head in El'. subst tr.
    rewrite (no_hook_returned _ F Hret). by exists st'.
Qed.

End Hooks.

Lemma build_with_the_hooks_of_the_class_witness :
  build_calls_return Fake.nothing /\
  exists (msg : string) (st' : State unit) (before : list Event),
    build (Impl.base_class Fake.nothing) false false
      (state_of example_object) = (inl (NotImplementedError msg), st') /\
    log st' =
      log (state_of example_object) ++ before ++
        [(METHOD_adjust_pes_for_run_one, Raised (NotImplementedError msg))] /\
    Forall returned before.
Proof.
  split; [apply nothing_build_calls_return|].
  apply (build_with_the_hooks_of_the_class Fake.nothing false false
           (state_of example_object) nothing_build_calls_return).
Defined.

(** ** The fake of the unit tests, for all its arguments *)

(** How far a run gets, by the outcomes of the two runs and of the
    comparison. *)
Definition result_of (run_one run_two compare : bool) : RunResult :=
  if run_one then
    if run_two then if compare then AllPass else CompareFails
    else Run2Fails
  else Run1Fails.

Section FixedOutcomes.
Context {Case : Type} (H : Impl.t Case).
Hypothesis ok : run_calls_return H.
Variables (passes : string -> bool) (compares : string -> string -> bool).
Hypothesis run_passes :
  forall s c, exists c', Impl._run H s c = inr (passes s, c').
Hypothesis compare_passes :
  forall s1 s2 c, exists c',
    Impl._component_compare_test H s1 s2 c = inr (compares s1 s2, c').

Ltac run_call :=
  match goal with
  | |- context [Impl._run_common_setup H ?c] =>
      destruct (ok_run_common_setup H ok c) as [? ->]
  | |- context [Impl._run_one_setup H ?c] =>
      destruct (ok_run_one_setup H ok c) as [? ->]
  | |- context [Impl._run_two_setup H ?c] =>
      destruct (ok_run_two_setup H ok c) as [? ->]
  | |- context [Impl._stage_saved_pes_file H ?s ?c] =>
      destruct (ok_stage_saved_pes_file H ok s c) as [? ->]
  | |- context [Impl._stage_saved_build_files H ?s ?c] =>
      destruct (ok_stage_saved_build_files H ok s c) as [? ->]
  | |- context [Impl._load_staged_xml_files H ?b ?c] =>
      destruct (ok_load_staged_xml_files H ok b c) as [? ->]
  | |- context [Impl._run H ?s ?c] =>
      destruct (run_passes s c) as [? ->];
      try match goal with
          | |- context [if passes s then _ else _] => destruct (passes s)
          end
  | |- context [Impl._component_compare_test H ?s1 ?s2 ?c] =>
      destruct (compare_passes s1 s2 c) as [? ->];
      try match goal with
          | |- context [if compares s1 s2 then _ else _] =>
              destruct (compares s1 s2)
          end
  end; simpl.

(** If the outcome of a run depends on its suffix only, and that of the
    comparison on the two suffixes, they fix how far [run] gets. *)
Lemma run_of_fixed_outcomes (st : State Case) :
  let o := self st in
  let r := result_of (passes (_run_one_suffix o)) (passes (_run_two_suffix o))
             (compares (_run_one_suffix o) (_run_two_suffix o)) in
  exists case' : Case,
    run H st =
      (inr (all_pass r),
       {| self := after_run o r; case := case';
          saved_xml_files := saved_xml_files st;
          log := log st ++ run_events o r |}).
Proof.
  destruct st as [[pe tsl tm s1 s2 d1 d2 r1 r2 rc] c sv lg].
  unfold run, _run_common_setup, _run_one_setup, _run_two_setup,
    _stage_saved_pes_file, _stage_saved_build_files, _load_staged_xml_files,
    _run, _component_compare_test, logger_info,
    different_pes_or_two_executables, _has_two_executables,
    bind, ret, call, call_bool, logged, result_of.
  destruct pe, tsl, tm; simpl; repeat run_call;
    unfold set_self; simpl; rewrite <- ?List.app_assoc;
    eexists; reflexivity.
Qed.

End FixedOutcomes.

Lemma stripped_not_base (s : string) :
  rstrip s <> "base" -> s <> "base".
Proof. intros Hne ->. by apply Hne. Qed.

(** X14.  The fake of the unit tests, for every choice of its arguments that
    its constructor accepts: the first run passes exactly if
    [run_one_should_pass]; the second exactly if [run_two_should_pass] and
    [run_two_suffix] has no trailing whitespace (the fake looks the stripped
    suffix up among the suffixes as given); the comparison exactly if
    [compare_should_pass].  [run] returns their conjunction, the statuses
    are those of the step the run stopped at, and the second run and the
    comparison are called only after what comes before them passed. *)
Theorem fake_run_follows_its_arguments
    (two_builds_for_sharedlib two_builds_for_model
       runs_have_different_pe_settings : bool) (run_two_suffix : string)
    (run_one_should_pass run_two_should_pass compare_should_pass : bool) :
  rstrip run_two_suffix <> "base" -> rstrip run_two_suffix <> "original" ->
  let run_two_passes :=
    run_two_should_pass
    && bool_decide (rstrip run_two_suffix = run_two_suffix) in
  exists calls : list Call,
    Fake.exercise
      (Fake.__init__ two_builds_for_sharedlib two_builds_for_model
         runs_have_different_pe_settings "base" run_two_suffix
         run_one_should_pass run_two_should_pass compare_should_pass) =
      Some (inr (run_one_should_pass && run_two_passes && compare_should_pass),
            calls,
            (if run_one_should_pass then "PASS" else "FAIL",
             if run_one_should_pass
             then (if run_two_passes then "PASS" else "FAIL") else "NOT RUN",
             if run_one_should_pass && run_two_passes
             then (if compare_should_pass then "PASS" else "FAIL")
             else "NOT RUN")) /\
    List.filter (fun c => is_run c || is_compare c) calls =
      METHOD_run "base" ::
      (if run_one_should_pass then
         METHOD_run (rstrip run_two_suffix) ::
         (if run_two_passes
          then [METHOD_component_compare_test "base" (rstrip run_two_suffix)]
          else [])
       else []).
Proof.
  intros N1 N2 run_two_passes.
  unfold Fake.exercise, Fake.__init__. simpl negb. cbv iota.
  destruct (init_cases two_builds_for_sharedlib two_builds_for_model
              runs_have_different_pe_settings run_two_suffix "" "")
    as [[E _]|[[E _]|(_ & _ & ->)]]; [done | done |].
  set (l := (if run_one_should_pass then ["base"] else []) ++
            (if run_two_should_pass then [run_two_suffix] else [])).
  match goal with |- context [run ?H ?st] =>
    destruct (run_of_fixed_outcomes H (fake_run_calls_return _ _)
                (fun x => bool_decide (x ∈ l))
                (fun _ _ => if compare_should_pass then true else false)
                ltac:(by eexists) ltac:(by eexists) st) as (c' & ->)
  end.
  simpl.
  assert (bool_decide ("base" ∈ l) = run_one_should_pass) as ->.
  { subst l. pose proof (stripped_not_base _ N1).
    destruct run_one_should_pass, run_two_should_pass; simpl;
      first [ reflexivity
            | apply bool_decide_true; set_solver
            | apply bool_decide_false; set_solver ]. }
  assert (bool_decide (rstrip run_two_suffix ∈ l) = run_two_passes) as ->.
  { subst l run_two_passes.
    destruct run_one_should_pass, run_two_should_pass; cbn [andb app];
      first [ apply bool_decide_ext; set_solver
            | apply bool_decide_false; set_solver ]. }
  clearbody run_two_passes. clear l.
  destruct run_one_should_pass, run_two_passes, compare_should_pass,
    runs_have_different_pe_settings, two_builds_for_sharedlib,
    two_builds_for_model; (eexists; split; reflexivity).
Qed.

Lemma fake_run_follows_its_arguments_witness :
  rstrip "test " <> "base" /\ rstrip "test " <> "original" /\
  exists calls : list Call,
    Fake.exercise (Fake.__init__ false false true "base" "test " true true true)
      = Some (inr false, calls, ("PASS", "FAIL", "NOT RUN")) /\
    List.filter (fun c => is_run c || is_compare c) calls =
      [METHOD_run "base"; METHOD_run "test"].
Proof.
  split; [discriminate|]. split; [discriminate|].
  apply (fake_run_follows_its_arguments false false true "test "
           true true true); discriminate.
Defined.

(** ** The constructor and whitespace *)

Lemma rstrip_all_space (s : string) : all_space s = true -> rstrip s = "".
Proof.
  induction s as [|c s IH]; simpl; [done|].
  intros [Hc Hs]%andb_prop. by rewrite (IH Hs), Hc.
Qed.

Lemma rstrip_app_space (s ws : string) :
  all_space ws = true -> rstrip (s +:+ ws) = rstrip s.
Proof.
  intros Hws. induction s as [|c s IH].
  - change ("" +:+ ws) with ws. by rewrite rstrip_all_space.
  - change (String c s +:+ ws) with (String c (s +:+ ws)). simpl.
    by rewrite IH.
Qed.

(** X15.  The constructor does not look at trailing whitespace of
    [run_two_suffix]: with more of it the outcome is the same, the object or
    the error.  A suffix that is empty or all whitespace is accepted, and
    the object then has the empty string as the suffix of run two. *)
Theorem init_ignores_trailing_whitespace (tsl tm pe : bool)
    (s ws d1 d2 : string) :
  all_space ws = true ->
  __init__ tsl tm pe (s +:+ ws) d1 d2 = __init__ tsl tm pe s d1 d2 /\
  exists o, __init__ tsl tm pe ws d1 d2 = inr o /\ _run_two_suffix o = "".
Proof.
  intros Hws. split.
  - unfold __init__. by rewrite rstrip_app_space.
  - unfold __init__. rewrite (rstrip_all_space ws Hws). simpl.
    by eexists.
Qed.

(** ** The theorems at work *)

Lemma run_keeps_status_of_steps_not_reached_witness :
  run_calls_return example_impl /\
  _run_one_suffix example_object <> _run_two_suffix example_object /\
  exists (result : bool) (st' : State unit) (tr : list Event),
    run example_impl (state_of example_object) = (inr result, st') /\
    (failed (METHOD_run "test") tr ->
       result = false /\ _status_run2 (self st') = "FAIL" /\
       _status_compare (self st') = "NOT RUN").
Proof.
  split; [apply fake_run_calls_return|]. split; [discriminate|].
  destruct (run_keeps_status_of_steps_not_reached example_impl
              (state_of example_object) (fake_run_calls_return _ _)
              ltac:(discriminate))
    as (result & st' & tr & E & _ & _ & H2).
  exists result, st', tr. split; [exact E|].
  intros Hf. destruct (H2 Hf) as (? & ? & ? & ?). by split_and!.
Defined.


Lemma restore_or_save_step_witness :
  build_calls_return Fake.nothing /\
  exists (st' : State unit) (tr : list Event),
    _pre_build_restore_or_save_xml_files Fake.nothing
      (state_of example_object) = (inr tt, st') /\
    map fst tr =
      [FUNCTION_restore_or_save_xml_file "env_mach_pes" "original";
       FUNCTION_restore_or_save_xml_file "env_build" "original"] /\
    saved_xml_files st' =
      ∅ ∪ {[ ("env_mach_pes", "original") ]} ∪ {[ ("env_build", "original") ]}.
Proof.
  split; [apply nothing_build_calls_return|].
  destruct (restore_or_save_step Fake.nothing (state_of example_object)
              nothing_build_calls_return)
    as (st' & tr & E & _ & _ & Hc & Hs & _).
  exists st', tr. split; [exact E|]. split; [exact Hc | exact Hs].
Defined.

Lemma build_passes_in_order_witness :
  build_calls_return Fake.nothing /\
  exists (st' : State unit) (tr : list Event),
    build Fake.nothing false false (state_of example_object) = (inr tt, st') /\
    log st' = tr /\
    calls_of is_build_step tr =
      [METHOD_stage_saved_pes_file "base"; METHOD_load_staged_xml_files true;
       METHOD_build_one_setup; METHOD_SystemTestsCommon_build false false;
       METHOD_save_build_files "base";
       METHOD_stage_saved_pes_file "test"; METHOD_load_staged_xml_files true;
       METHOD_build_two_setup; METHOD_SystemTestsCommon_build false false;
       METHOD_save_build_files "test"].
Proof.
  split; [apply nothing_build_calls_return|].
  destruct (build_passes_in_order Fake.nothing false false
              (state_of example_object) nothing_build_calls_return)
    as (st' & tr & two & E & El & En & Hc).
  exists st', tr. split; [exact E|]. split; [exact El|].
  injection En as <-. exact Hc.
Defined.

Lemma run_stages_what_build_saved_witness :
  build_calls_return Fake.nothing /\ run_calls_return Fake.nothing /\
  exists (st1 st2 : State unit) (built ran : list Event) (result : bool),
    build Fake.nothing false false (state_of example_object) = (inr tt, st1) /\
    log st1 = built /\
    run Fake.nothing st1 = (inr result, st2) /\ log st2 = log st1 ++ ran /\
    (forall s, called (METHOD_stage_saved_build_files s) ran ->
               called (METHOD_save_build_files s) built).
Proof.
  split; [apply nothing_build_calls_return|].
  split; [apply nothing_run_calls_return|].
  destruct (run_stages_what_build_saved Fake.nothing
              (state_of example_object) nothing_build_calls_return
              nothing_run_calls_return)
    as [(st1 & st2 & built & ran & result & E1 & L1 & E2 & L2 & _ & Hb) _].
  exists st1, st2, built, ran, result. by split_and!.
Defined.

Lemma init_ignores_trailing_whitespace_witness :
  all_space " " = true /\
  __init__ false false true ("test" +:+ " ") "" "" =
    __init__ false false true "test" "" "" /\
  exists o, __init__ false false true " " "" "" = inr o /\
            _run_two_suffix o = "".
Proof.
  split; [reflexivity|].
  apply (init_ignores_trailing_whitespace false false true "test" " " "" "").
  reflexivity.
Defined.
